(** * OCRPDFBase64Watcher: the file-intake pipeline of the [watcher] package

    A shallow embedding of [watcher/utils.py], [watcher/ocr.py] and
    [watcher/handlers.py] (with the initial scan of [watcher/cli.py]),
    followed by the properties of the specification that concern them.

    Conventions.
    - A path is the list of its components below the root.
    - File contents are lists of bytes; text is a [string].
    - The file system, the log and the trace of file-system calls form a
      [World]; code that touches them is written in the monad [M], whose
      results are [Ok] or [Raise] (a Python exception).
    - What the code cannot decide by itself (what a poll of a file that is
      being written observes, whether a scratch file can be had, what the
      OCR engine does, how paths resolve) is supplied by an [Env].
    - The scratch file of the OCR adapter lives in the temporary directory
      of the system, outside the tree that a [World] describes: what
      becomes of it is part of what the engine does. *)

From Stdlib Require Import ZArith NArith Lia.
From Stdlib.Strings Require Import Ascii String Byte.
From stdpp Require Import base gmap sets list list_tactics strings relations.

Open Scope string_scope.

(* ===================================================================== *)
(** ** Strings and paths (the parts of [str] and [pathlib] the code uses) *)
(* ===================================================================== *)

Abbreviation Path := (list string).

(** [str.lower] on ASCII letters. *)
Definition lower_ascii (c : ascii) : ascii :=
  let n := nat_of_ascii c in
  if (65 <=? n)%nat && (n <=? 90)%nat then ascii_of_nat (n + 32) else c.

Fixpoint str_lower (s : string) : string :=
  match s with
  | EmptyString => EmptyString
  | String c r => String (lower_ascii c) (str_lower r)
  end.

Fixpoint str_take (n : nat) (s : string) : string :=
  match n, s with
  | S n', String c r => String c (str_take n' r)
  | _, _ => EmptyString
  end.

Fixpoint str_drop (n : nat) (s : string) : string :=
  match n, s with
  | S n', String _ r => str_drop n' r
  | _, _ => s
  end.

(** [s.endswith(suf)] *)
Definition str_endswith (s suf : string) : bool :=
  (String.length suf <=? String.length s)%nat
  && String.eqb (str_drop (String.length s - String.length suf) s) suf.

(** [name.rfind('.')]: the index of the last dot, if any. *)
Fixpoint rfind_dot (s : string) : option nat :=
  match s with
  | EmptyString => None
  | String c r =>
      match rfind_dot r with
      | Some i => Some (S i)
      | None => if Ascii.eqb c "."%char then Some 0%nat else None
      end
  end.

(** [PurePath.name] *)
Definition path_name (p : Path) : string := List.last p EmptyString.

(** The split point of [PurePath.suffix] and [PurePath.stem]: the last dot
    of the name, when it is neither the first nor the last character. *)
Definition suffix_at (nm : string) : option nat :=
  match rfind_dot nm with
  | Some i =>
      if (0 <? i)%nat && (i <? String.length nm - 1)%nat then Some i else None
  | None => None
  end.

(** [PurePath.suffix] *)
Definition path_suffix (p : Path) : string :=
  match suffix_at (path_name p) with
  | Some i => str_drop i (path_name p)
  | None => EmptyString
  end.

(** [PurePath.stem] *)
Definition path_stem (p : Path) : string :=
  match suffix_at (path_name p) with
  | Some i => str_take i (path_name p)
  | None => path_name p
  end.

(** [PurePath.parent] *)
Definition path_parent (p : Path) : Path := removelast p.

(** [dir / name] *)
Definition joinpath (d : Path) (nm : string) : Path := d ++ [nm].

(** [PurePath.with_suffix]: the old suffix, if any, is cut off the name and
    the new one appended. *)
Definition with_suffix (p : Path) (suf : string) : Path :=
  let nm := path_name p in
  let old := path_suffix p in
  let nm' :=
    if String.eqb old EmptyString then nm ++ suf
    else str_take (String.length nm - String.length old) nm ++ suf in
  joinpath (path_parent p) nm'.

(* ===================================================================== *)
(** ** [base64.b64encode] and the standard decoder *)
(* ===================================================================== *)

Definition ALPHABET : string :=
  "ABCDEFGHIJKLMNOPQRSTUVWXYZabcdefghijklmnopqrstuvwxyz0123456789+/".

Definition PAD : ascii := "="%char.

Definition b64_char (n : N) : ascii :=
  match String.get (N.to_nat n) ALPHABET with
  | Some c => c
  | None => PAD
  end.

Fixpoint index_of (c : ascii) (s : string) : option N :=
  match s with
  | EmptyString => None
  | String d r => if Ascii.eqb c d then Some 0%N else N.succ <$> index_of c r
  end.

Definition b64_index (c : ascii) : option N := index_of c ALPHABET.

(** Three bytes become four sextets; a last group of one or two bytes is
    padded with [=]. *)
Fixpoint b64encode (bs : list byte) : string :=
  match bs with
  | [] => EmptyString
  | [a] =>
      let x := Byte.to_N a in
      String (b64_char (x / 4))
        (String (b64_char (x mod 4 * 16)) (String PAD (String PAD EmptyString)))
  | [a; b] =>
      let x := Byte.to_N a in
      let y := Byte.to_N b in
      String (b64_char (x / 4))
        (String (b64_char (x mod 4 * 16 + y / 16))
           (String (b64_char (y mod 16 * 4)) (String PAD EmptyString)))
  | a :: b :: c :: rest =>
      let x := Byte.to_N a in
      let y := Byte.to_N b in
      let z := Byte.to_N c in
      String (b64_char (x / 4))
        (String (b64_char (x mod 4 * 16 + y / 16))
           (String (b64_char (y mod 16 * 4 + z / 64))
              (String (b64_char (z mod 64)) (b64encode rest))))
  end.

(** The strict decoder of RFC 4648: groups of four characters of the
    alphabet, padding only in the last group. *)
Fixpoint b64decode (s : string) : option (list byte) :=
  match s with
  | EmptyString => Some []
  | String c1 (String c2 (String c3 (String c4 rest))) =>
      s1 ← b64_index c1;
      s2 ← b64_index c2;
      if Ascii.eqb c3 PAD then
        if Ascii.eqb c4 PAD && bool_decide (rest = EmptyString) then
          a ← Byte.of_N (s1 * 4 + s2 / 16); Some [a]
        else None
      else
        s3 ← b64_index c3;
        if Ascii.eqb c4 PAD then
          if bool_decide (rest = EmptyString) then
            a ← Byte.of_N (s1 * 4 + s2 / 16);
            b ← Byte.of_N (s2 mod 16 * 16 + s3 / 4);
            Some [a; b]
          else None
        else
          s4 ← b64_index c4;
          a ← Byte.of_N (s1 * 4 + s2 / 16);
          b ← Byte.of_N (s2 mod 16 * 16 + s3 / 4);
          c ← Byte.of_N (s3 mod 4 * 64 + s4);
          tl ← b64decode rest;
          Some (a :: b :: c :: tl)
  | _ => None
  end.

(* ===================================================================== *)
(** ** The world: file system, log, exceptions *)
(* ===================================================================== *)

Inductive exn : Type :=
  | FileNotFoundError
  | IsADirectoryError
  | FileExistsError
  | PriorOcrFoundError
  | OcrError (code : nat)
  | RuntimeError (path : Path) (cause : exn).

Inductive level : Type := DEBUG | INFO | WARNING | ERROR.

(** The log messages of the package, by the statement that emits them. *)
Inductive message : Type :=
  | MsgAlreadyProcessing (path : Path)
  | MsgNotReady (path : Path)
  | MsgWrotePdf (out : Path) (used_original : bool)
  | MsgPdfWriteFailed (e : exn)
  | MsgWroteBase64 (out : Path) (used_original : bool)
  | MsgFailedToProcess (path : Path) (e : exn)
  | MsgOcrNotInstalled
  | MsgOcrEmpty
  | MsgPriorOcr
  | MsgOcrFailed (e : exn)
  (** a record of the OCR engine, which logs through [logging] too *)
  | MsgEngine (text : string).

(** File-system calls that change the disk, in the order they are made. *)
Inductive fsop : Type :=
  | OpWrite (p : Path)
  | OpReplace (src dst : Path)
  | OpMkdir (d : Path).

Record World : Type := mkWorld {
  dirs : gset Path;
  files : gmap Path (list byte);
  logs : list (level * message);
  calls : list fsop
}.

Inductive result (A : Type) : Type :=
  | Ok (a : A)
  | Raise (e : exn).
Arguments Ok {A} a.
Arguments Raise {A} e.

Definition M (A : Type) : Type := World → result A * World.

#[global] Instance M_ret : MRet M := λ A a w, (Ok a, w).
#[global] Instance M_bind : MBind M := λ A B k m w,
  match m w with
  | (Ok a, w') => k a w'
  | (Raise e, w') => (Raise e, w')
  end.

Definition raise {A} (e : exn) : M A := λ w, (Raise e, w).

(** [try: body except Exception as e: handler(e)] *)
Definition try_except {A} (body : M A) (handler : exn → M A) : M A := λ w,
  match body w with
  | (Ok a, w') => (Ok a, w')
  | (Raise e, w') => handler e w'
  end.

Definition get_world : M World := λ w, (Ok w, w).

Definition log (l : level) (m : message) : M unit := λ w,
  (Ok (), mkWorld (dirs w) (files w) (logs w ++ [(l, m)]) (calls w)).

Definition record (o : fsop) : M unit := λ w,
  (Ok (), mkWorld (dirs w) (files w) (logs w) (calls w ++ [o])).

Definition set_files (f : gmap Path (list byte)) : M unit := λ w,
  (Ok (), mkWorld (dirs w) f (logs w) (calls w)).

Definition set_dirs (d : gset Path) : M unit := λ w,
  (Ok (), mkWorld d (files w) (logs w) (calls w)).

(** The root always exists; any other directory exists when recorded. *)
Definition dir_exists (w : World) (d : Path) : bool :=
  bool_decide (d = []) || bool_decide (d ∈ dirs w).

(** [Path.is_dir] *)
Definition is_dir (p : Path) : M bool :=
  w ← get_world; mret (dir_exists w p).

(** [Path.read_bytes] *)
Definition read_bytes (p : Path) : M (list byte) :=
  w ← get_world;
  if dir_exists w p then raise IsADirectoryError
  else match files w !! p with
       | Some data => mret data
       | None => raise FileNotFoundError
       end.

(** [Path.write_bytes]: needs the parent directory. *)
Definition write_bytes (p : Path) (data : list byte) : M unit :=
  record (OpWrite p);;
  w ← get_world;
  if dir_exists w p then raise IsADirectoryError
  else if dir_exists w (path_parent p)
       then set_files (<[p := data]> (files w))
       else raise FileNotFoundError.

(** [Path.write_text(s, encoding="utf-8")] for text of the ASCII range. *)
Definition write_text (p : Path) (s : string) : M unit :=
  write_bytes p (list_byte_of_string s).

(** [os.replace]: an atomic rename over the destination. *)
Definition os_replace (src dst : Path) : M unit :=
  record (OpReplace src dst);;
  w ← get_world;
  match files w !! src with
  | None => raise FileNotFoundError
  | Some data =>
      if dir_exists w dst then raise IsADirectoryError
      else if dir_exists w (path_parent dst)
           then set_files (<[dst := data]> (delete src (files w)))
           else raise FileNotFoundError
  end.

(** The directory itself and the directories above it, root excluded. *)
Definition ancestors (d : Path) : list Path :=
  (λ k, take k d) <$> seq 1 (length d).

(** [Path.mkdir(parents=True, exist_ok=True)]: fails only when a regular
    file is in the way. *)
Definition mkdir_parents (d : Path) : M unit :=
  record (OpMkdir d);;
  w ← get_world;
  if existsb (λ a, bool_decide (is_Some (files w !! a))) (ancestors d)
  then raise FileExistsError
  else set_dirs (list_to_set (ancestors d) ∪ dirs w).

(* ===================================================================== *)
(** ** The environment *)
(* ===================================================================== *)

(** What one iteration of the readiness loop observes of the file:
    [path.exists()], whether [pikepdf.open] succeeds, and [st_size]
    ([None] when [stat] raises [FileNotFoundError]). *)
Record PollObs : Type := mkObs {
  ob_exists : bool;
  ob_opens : bool;
  ob_stat : option Z
}.

(** The arguments of the call [ocrmypdf.ocr(...)]. *)
Record OcrArgs : Type := mkOcrArgs {
  arg_input : Path;
  arg_skip_text : bool;
  arg_optimize : Z;
  arg_jobs : Z;
  arg_image_dpi : Z;
  arg_progress_bar : bool;
  arg_output_type : string
}.

(** What a call of [ocrmypdf.ocr] does, as far as the adapter can tell:
    the records it sends to [logging] while it runs, the exception it
    raises when it does not return, and the scratch file as the call
    leaves it, [None] when the file is not there any more. *)
Record EngineOutcome : Type := mkOutcome {
  engine_logs : list (level * string);
  engine_raises : option exn;
  engine_scratch : option (list byte)
}.

(** The engine returns without a word, [data] being in the scratch file. *)
Definition EngineWrote (data : list byte) : EngineOutcome :=
  mkOutcome [] None (Some data).

(** The engine raises [e] without a word and leaves the scratch file as
    it was created, empty. *)
Definition EngineRaised (e : exn) : EngineOutcome :=
  mkOutcome [] (Some e) (Some []).

Record Env : Type := mkEnv {
  (** [Path.resolve()]; [None] when it raises *)
  resolve : Path → option Path;
  (** whether [import pikepdf] succeeded *)
  HAVE_PIKEPDF : bool;
  (** the observation of a path at the [i]-th poll *)
  polls : Path → nat → PollObs;
  (** the module [ocrmypdf], [None] when its import failed *)
  ocrmypdf : option (OcrArgs → gmap Path (list byte) → EngineOutcome);
  (** [os.cpu_count()] *)
  cpu_count : option Z;
  (** [tempfile.NamedTemporaryFile(suffix=".pdf", delete=True)]: the
      exception it raises when no scratch file can be created *)
  scratch_error : option exn
}.

(* ===================================================================== *)
(** ** watcher/utils.py *)
(* ===================================================================== *)

(** [child.resolve().relative_to(parent.resolve())] succeeds exactly when
    the components of the second path begin the first; any exception
    gives [False]. *)
Definition is_within (env : Env) (child parent : Path) : bool :=
  match resolve env child with
  | Some c =>
      match resolve env parent with
      | Some p => bool_decide (p `prefix_of` c)
      | None => false
      end
  | None => false
  end.

(** The two locals of the loop. *)
Record PollState : Type := mkPoll {
  last_size : Z;
  stable_count : Z
}.

Inductive PollStep : Type :=
  | Return (b : bool)
  | Next (st : PollState).

(** The body of the [for] loop on one observation. *)
Definition poll_iteration (have_pikepdf : bool) (o : PollObs) (st : PollState)
  : PollStep :=
  if negb (ob_exists o) then Next st
  else if have_pikepdf && ob_opens o then Return true
  else
    let size := match ob_stat o with Some n => n | None => (-1)%Z end in
    if (0 <? size)%Z && (size =? last_size st)%Z then
      let sc := (stable_count st + 1)%Z in
      if (2 <=? sc)%Z then Return true
      else Next (mkPoll size sc)
    else Next (mkPoll size 0%Z).

(** [n] iterations of the loop, starting with the [i]-th observation. *)
Fixpoint poll_from (have_pikepdf : bool) (obs : nat → PollObs)
    (i n : nat) (st : PollState) : PollStep :=
  match n with
  | O => Next st
  | S n' =>
      match poll_iteration have_pikepdf (obs i) st with
      | Return b => Return b
      | Next st' => poll_from have_pikepdf obs (S i) n' st'
      end
  end.

Definition poll_init : PollState := mkPoll (-1)%Z 0%Z.

(** [range(max(1, retries))] *)
Definition budget (retries : Z) : nat := Z.to_nat (Z.max 1 retries).

(** The loop of [wait_for_file_ready] after its first [n] iterations. *)
Definition after_polls (env : Env) (path : Path) (n : nat) : PollStep :=
  poll_from (HAVE_PIKEPDF env) (polls env path) 0 n poll_init.

(** The loop over its whole budget. *)
Definition poll_all (env : Env) (path : Path) (retries : Z) : PollStep :=
  after_polls env path (budget retries).

Definition wait_for_file_ready (env : Env) (path : Path) (use_polling : bool)
    (retries : Z) : bool :=
  match poll_all env path retries with
  | Return b => b
  | Next _ => ob_exists (polls env path (budget retries))
  end.

(* ===================================================================== *)
(** ** watcher/ocr.py *)
(* ===================================================================== *)

(** [os.cpu_count() or 1] *)
Definition cpu_or_1 (env : Env) : Z :=
  match cpu_count env with
  | Some c => if (c =? 0)%Z then 1%Z else c
  | None => 1%Z
  end.

(** [ocr_jobs if (ocr_jobs and ocr_jobs > 0) else (os.cpu_count() or 1)] *)
Definition jobs_arg (env : Env) (ocr_jobs : option Z) : Z :=
  match ocr_jobs with
  | Some n => if (0 <? n)%Z then n else cpu_or_1 env
  | None => cpu_or_1 env
  end.

Definition ocr_args (env : Env) (pdf_path : Path) (ocr_jobs : option Z)
    (output_type : string) : OcrArgs :=
  {| arg_input := pdf_path;
     arg_skip_text := true;
     arg_optimize := 3;
     arg_jobs := jobs_arg env ocr_jobs;
     arg_image_dpi := 150;
     arg_progress_bar := false;
     arg_output_type :=
       if String.eqb output_type EmptyString then "pdf" else output_type |}.

(** The records of the engine, as they reach the log of the process. *)
Definition engine_records (lg : list (level * string)) : list (level * message) :=
  (λ x, (x.1, MsgEngine x.2)) <$> lg.

Definition engine_log (lg : list (level * string)) : M unit := λ w,
  (Ok (), mkWorld (dirs w) (files w) (logs w ++ engine_records lg) (calls w)).

(** [ocrmypdf.ocr(...)] *)
Definition engine_call (o : EngineOutcome) : M unit :=
  engine_log (engine_logs o);;
  match engine_raises o with
  | Some e => raise e
  | None => mret ()
  end.

(** [tmp_path.read_bytes()] *)
Definition scratch_read (o : EngineOutcome) : M (list byte) :=
  match engine_scratch o with
  | Some data => mret data
  | None => raise FileNotFoundError
  end.

(** Leaving the [with] block: the scratch file is closed and unlinked,
    and [os.unlink] raises when the file is gone. *)
Definition scratch_exit (o : EngineOutcome) : M unit :=
  match engine_scratch o with
  | Some _ => mret ()
  | None => raise FileNotFoundError
  end.

(** Returns [(pdf_bytes, used_original)]. The [with] block of the scratch
    file is around the [try] block of the engine: what the creation of
    the scratch file raises, and what its removal raises, goes to the
    caller. *)
Definition ocr_to_bytes (env : Env) (pdf_path : Path) (ocr_jobs : option Z)
    (output_type : string) : M (list byte * bool) :=
  original ← try_except (read_bytes pdf_path)
                (λ e, raise (RuntimeError pdf_path e));
  match ocrmypdf env with
  | None => log WARNING MsgOcrNotInstalled;; mret (original, true)
  | Some ocr =>
      match scratch_error env with
      | Some e => raise e
      | None =>
          w ← get_world;
          let o := ocr (ocr_args env pdf_path ocr_jobs output_type) (files w) in
          r ← try_except
                (engine_call o;;
                 data ← scratch_read o;
                 match data with
                 | [] => log WARNING MsgOcrEmpty;; mret (original, true)
                 | _ => mret (data, false)
                 end)
                (λ e, match e with
                      | PriorOcrFoundError =>
                          log INFO MsgPriorOcr;; mret (original, true)
                      | _ => log WARNING (MsgOcrFailed e);; mret (original, true)
                      end);
          scratch_exit o;;
          mret r
      end
  end.

(* ===================================================================== *)
(** ** watcher/handlers.py *)
(* ===================================================================== *)

(** The configuration held by a [PdfToBase64Handler]. *)
Record Handler : Type := mkHandler {
  input_dir : Path;
  output_dir : Path;
  use_polling : bool;
  retries : Z;
  ocr_jobs : option Z;
  output_type : string
}.

Definition pdf_out_path (h : Handler) (path : Path) : Path :=
  joinpath (output_dir h) (path_stem path ++ "_ocr.pdf").

Definition tmp_pdf_out (h : Handler) (path : Path) : Path :=
  with_suffix (pdf_out_path h path)
    (path_suffix (pdf_out_path h path) ++ ".tmp").

Definition out_path (h : Handler) (path : Path) : Path :=
  joinpath (output_dir h) (path_stem path ++ ".base64").

Definition tmp_path (h : Handler) (path : Path) : Path :=
  with_suffix (out_path h path) (path_suffix (out_path h path) ++ ".tmp").

(** The inner [try] of [_handle_path]: the PDF artifact; a failure is
    logged and goes no further. *)
Definition write_ocr_pdf (h : Handler) (path : Path) (pdf_bytes : list byte)
    (used_original : bool) : M unit :=
  try_except
    (write_bytes (tmp_pdf_out h path) pdf_bytes;;
     os_replace (tmp_pdf_out h path) (pdf_out_path h path);;
     log INFO (MsgWrotePdf (pdf_out_path h path) used_original))
    (λ e, log WARNING (MsgPdfWriteFailed e)).

(** The statements after it: the base64 artifact. *)
Definition write_base64 (h : Handler) (path : Path) (pdf_bytes : list byte)
    (used_original : bool) : M unit :=
  let b64 := b64encode pdf_bytes in
  mkdir_parents (output_dir h);;
  write_text (tmp_path h path) b64;;
  os_replace (tmp_path h path) (out_path h path);;
  log INFO (MsgWroteBase64 (out_path h path) used_original).

(** The outer [try] block of [_handle_path]: OCR, then the two artifacts. *)
Definition ocr_and_publish (h : Handler) (env : Env) (path : Path) : M unit :=
  '(pdf_bytes, used_original) ←
     ocr_to_bytes env path (ocr_jobs h) (output_type h);
  write_ocr_pdf h path pdf_bytes used_original;;
  write_base64 h path pdf_bytes used_original.

Definition _handle_path (h : Handler) (env : Env) (path : Path) : M unit :=
  d ← is_dir path;
  if d || negb (String.eqb (str_lower (path_suffix path)) ".pdf") then mret ()
  else
    let name := path_name path in
    if str_endswith name "_ocr.pdf" || str_endswith name ".ocr.pdf" then mret ()
    else if negb (bool_decide (output_dir h = input_dir h))
            && is_within env path (output_dir h) then mret ()
    else if negb (wait_for_file_ready env path (use_polling h) (retries h))
    then log WARNING (MsgNotReady path)
    else try_except (ocr_and_publish h env path)
           (λ e, log ERROR (MsgFailedToProcess path e)).

(** Calls on the set [_in_flight] that change it. *)
Inductive setop : Type :=
  | SetAdd (p : Path)
  | SetDiscard (p : Path).

(** The mutable state around a handler: the set [_in_flight]; the work
    units of the executor, by the path they were created for, from the
    moment their path entered the set ([admitted]: [executor.submit] not
    yet called; [queued]: waiting for a worker; [running]: in a worker);
    the calls made on the set; the world. *)
Record Sys : Type := mkSys {
  in_flight : gset Path;
  admitted : list Path;
  queued : list Path;
  running : list Path;
  set_calls : list setop;
  world : World
}.

(** The system with the world replaced. *)
Definition set_world (s : Sys) (w : World) : Sys :=
  mkSys (in_flight s) (admitted s) (queued s) (running s) (set_calls s) w.

(** The list without the first occurrence of [p]. *)
Fixpoint remove_first (p : Path) (l : list Path) : list Path :=
  match l with
  | [] => []
  | q :: l' => if bool_decide (p = q) then l' else q :: remove_first p l'
  end.

(** The block [with self._lock:] of [submit_path]; the boolean tells
    whether the path was admitted. *)
Definition check_and_add (path : Path) (s : Sys) : bool * Sys :=
  if bool_decide (path ∈ in_flight s) then
    (false, set_world s (log DEBUG (MsgAlreadyProcessing path) (world s)).2)
  else
    (true,
     mkSys ({[path]} ∪ in_flight s) (path :: admitted s) (queued s)
       (running s) (set_calls s ++ [SetAdd path]) (world s)).

(** [self.executor.submit(_task)] *)
Definition executor_submit (path : Path) (s : Sys) : Sys :=
  mkSys (in_flight s) (remove_first path (admitted s)) (queued s ++ [path])
    (running s) (set_calls s) (world s).

Definition submit_path (path : Path) (s : Sys) : Sys :=
  let '(fresh, s') := check_and_add path s in
  if fresh then executor_submit path s' else s'.

(** [self._in_flight.discard(path)] under the lock. *)
Definition discard (path : Path) (s : Sys) : Sys :=
  mkSys (in_flight s ∖ {[path]}) (admitted s) (queued s) (running s)
    (set_calls s ++ [SetDiscard path]) (world s).

(** A computation on the world, run in the system. *)
Definition in_world {A} (m : M A) (s : Sys) : result A * Sys :=
  let '(r, w') := m (world s) in (r, set_world s w').

(** [try: body finally: cleanup]: the cleanup runs whether the body
    returns or raises, and the result of the body is handed on. *)
Definition try_finally {A} (body : Sys → result A * Sys) (cleanup : Sys → Sys)
    (s : Sys) : result A * Sys :=
  let '(r, s') := body s in (r, cleanup s').

(** The closure [_task] of [submit_path]. *)
Definition _task (h : Handler) (env : Env) (path : Path) (s : Sys)
  : result unit * Sys :=
  try_finally (in_world (_handle_path h env path)) (discard path) s.

(** A worker takes the first work unit of the queue. *)
Definition worker_start (s : Sys) : Sys :=
  match queued s with
  | [] => s
  | p :: q =>
      mkSys (in_flight s) (admitted s) q (p :: running s) (set_calls s)
        (world s)
  end.

(** A worker runs its work unit to the end. *)
Definition worker_finish (h : Handler) (env : Env) (path : Path) (s : Sys)
  : Sys :=
  let s' := (_task h env path s).2 in
  mkSys (in_flight s') (admitted s') (queued s') (remove_first path (running s'))
    (set_calls s') (world s').

Definition init_sys (w : World) : Sys := mkSys ∅ [] [] [] [] w.

(** The interleavings of the notifier threads and of the [workers] worker
    threads, at the grain of the critical sections: a notifier runs the
    locked block of [submit_path] or hands an admitted path to the
    executor, a worker takes a unit from the queue or completes the one
    it runs (a unit counts as running up to the end of its [finally]
    block); besides, other processes change the disk. *)
Inductive step (h : Handler) (workers : nat) : Sys → Sys → Prop :=
  | step_outside (d : gset Path) (f : gmap Path (list byte)) s :
      step h workers s
        (set_world s (mkWorld d f (logs (world s)) (calls (world s))))
  | step_admit path s :
      step h workers s (check_and_add path s).2
  | step_schedule path s :
      path ∈ admitted s →
      step h workers s (executor_submit path s)
  | step_start s :
      queued s ≠ [] →
      (length (running s) < workers)%nat →
      step h workers s (worker_start s)
  | step_finish env path s :
      path ∈ running s →
      step h workers s (worker_finish h env path s).

Definition reachable (h : Handler) (workers : nat) (s : Sys) : Prop :=
  ∃ w, rtc (step h workers) (init_sys w) s.

(** The work units that exist for a path. *)
Definition units (s : Sys) : list Path := admitted s ++ queued s ++ running s.

(** watcher/cli.py, the initial scan over [sorted(input_dir.rglob("*.pdf"))]. *)
Definition initial_scan (h : Handler) (env : Env) (pdfs : list Path) (s : Sys)
  : Sys :=
  foldl (λ s pdf, if is_within env pdf (output_dir h) then s
                  else submit_path pdf s) s pdfs.

(* ===================================================================== *)
(** ** Vocabulary of the properties, and sample inputs *)
(* ===================================================================== *)

(** The structural probe is unavailable, or fails at every poll. *)
Definition probe_fails (env : Env) (path : Path) : Prop :=
  HAVE_PIKEPDF env = false ∨ ∀ i, ob_opens (polls env path i) = false.

(** The [i]-th poll finds the file, of size [sz]. *)
Definition sees (env : Env) (path : Path) (i : nat) (sz : Z) : Prop :=
  ob_exists (polls env path i) = true ∧ ob_stat (polls env path i) = Some sz.

(** Observations of a file given by a list: [Some sz] for a poll that
    finds the file with size [sz], [None] for a poll that does not find
    it; after the end of the list the file exists or not as [later] tells.
    [pikepdf] never opens it. *)
Definition obs_of (l : list (option Z)) (later : bool) (i : nat) : PollObs :=
  match l !! i with
  | Some (Some sz) => mkObs true false (Some sz)
  | Some None => mkObs false false None
  | None => mkObs later false None
  end.

(** An environment without symbolic links, without [pikepdf], with the
    given observations for every path and the given engine; scratch
    files can be created. *)
Definition sample_env (l : list (option Z)) (later : bool)
    (engine : option (OcrArgs → gmap Path (list byte) → EngineOutcome)) : Env :=
  mkEnv Some false (λ _, obs_of l later) engine (Some 4%Z) None.

(** The same on a system without a usable temporary directory: the
    creation of a scratch file raises. *)
Definition no_scratch_env (l : list (option Z)) (later : bool)
    (engine : option (OcrArgs → gmap Path (list byte) → EngineOutcome)) : Env :=
  mkEnv Some false (λ _, obs_of l later) engine (Some 4%Z)
    (Some FileNotFoundError).

(** An engine that gives up and takes its output file away. *)
Definition failing_engine (args : OcrArgs) (fs : gmap Path (list byte))
  : EngineOutcome :=
  mkOutcome [(ERROR, "giving up")] (Some (OcrError 2)) None.

(** The world with further records in its log. *)
Definition with_logs (w : World) (lg : list (level * message)) : World :=
  mkWorld (dirs w) (files w) (logs w ++ lg) (calls w).

(** What a run from [w] to [w'] added to the log. *)
Definition new_logs (w w' : World) : list (level * message) :=
  drop (length (logs w)) (logs w').

(** The records that [ocr_to_bytes] writes, and those of the engine it
    calls. *)
Definition ocr_message (x : level * message) : bool :=
  match x.2 with
  | MsgOcrNotInstalled | MsgOcrEmpty | MsgPriorOcr | MsgOcrFailed _
  | MsgEngine _ => true
  | _ => false
  end.

(** The record of its own that [ocr_to_bytes] writes after a call of the
    engine with outcome [o], if any. *)
Definition fallback_record (o : EngineOutcome) : list (level * message) :=
  match engine_raises o with
  | Some PriorOcrFoundError => [(INFO, MsgPriorOcr)]
  | Some e => [(WARNING, MsgOcrFailed e)]
  | None =>
      match engine_scratch o with
      | Some [] => [(WARNING, MsgOcrEmpty)]
      | Some _ => []
      | None => [(WARNING, MsgOcrFailed FileNotFoundError)]
      end
  end.

(** What the [try] block around the engine comes to, for the outcome [o]. *)
Definition engine_result (original : list byte) (o : EngineOutcome)
  : list byte * bool :=
  match engine_raises o, engine_scratch o with
  | None, Some (b :: data) => (b :: data, false)
  | _, _ => (original, true)
  end.

(** The three filters at the head of [_handle_path] let the path through. *)
Definition passes_filters (h : Handler) (env : Env) (path : Path) (w : World)
  : bool :=
  negb (dir_exists w path || negb (String.eqb (str_lower (path_suffix path)) ".pdf"))
  && negb (str_endswith (path_name path) "_ocr.pdf"
           || str_endswith (path_name path) ".ocr.pdf")
  && negb (negb (bool_decide (output_dir h = input_dir h))
           && is_within env path (output_dir h)).

(** The run of [_handle_path] from [w] reported both artifacts written. *)
Definition published (h : Handler) (env : Env) (path : Path) (w : World)
    (used_original : bool) : Prop :=
  let lg := new_logs w (_handle_path h env path w).2 in
  (INFO, MsgWrotePdf (pdf_out_path h path) used_original) ∈ lg
  ∧ (INFO, MsgWroteBase64 (out_path h path) used_original) ∈ lg.

(** A handler that watches [/in] and writes to [/in/base64]. *)
Definition sample_handler : Handler :=
  mkHandler ["in"] ["in"; "base64"] false 5 None "pdf".

(** An engine that puts two fixed bytes before its input. *)
Definition sample_engine (args : OcrArgs) (fs : gmap Path (list byte))
  : EngineOutcome :=
  match fs !! arg_input args with
  | Some data => EngineWrote ("O"%byte :: "K"%byte :: data)
  | None => EngineRaised (OcrError 2)
  end.

(** A disk with [/in/report.pdf] of three bytes; the output directory is
    there or not. *)
Definition sample_world (with_output_dir : bool) : World :=
  mkWorld (if with_output_dir then {[ ["in"]; ["in"; "base64"] ]} else {[ ["in"] ]})
    {[ ["in"; "report.pdf"] := ["M"%byte; "a"%byte; "n"%byte] ]} [] [].


(** The invariant of the dispatcher: no path has two work units, and the
    in-flight set holds exactly the paths that have one. *)
Definition dispatch_inv (s : Sys) : Prop :=
  NoDup (units s) ∧ ∀ p, p ∈ in_flight s ↔ p ∈ units s.

(** The record that [submit_path] logs for a duplicate. *)
Definition duplicate_record (path : Path) : level * message :=
  (DEBUG, MsgAlreadyProcessing path).


(* ===================================================================== *)
(** ** watcher/handlers.py, the event callbacks *)
(* ===================================================================== *)

(** A [watchdog] event; [dest_path] is [None] for an event that has no
    such attribute. *)
Record FileSystemEvent : Type := mkEvent {
  is_directory : bool;
  src_path : Path;
  dest_path : option Path
}.

Definition on_created (event : FileSystemEvent) (s : Sys) : Sys :=
  if is_directory event then s else submit_path (src_path event) s.

(** [getattr(event, "dest_path", event.src_path)] *)
Definition on_moved (event : FileSystemEvent) (s : Sys) : Sys :=
  if is_directory event then s
  else submit_path (default (src_path event) (dest_path event)) s.

(* ===================================================================== *)
(** ** watcher/cli.py, the set-up made by [main] *)
(* ===================================================================== *)

(** A string of the ASCII range. The option [--output-type] is modelled
    on such strings: there [str.strip] removes the characters of
    [is_space] and [str.lower] is [str_lower]; beyond, Python knows
    further white space (U+0085, U+00A0, ...) and further letters. *)
Definition is_ascii_str (s : string) : bool :=
  forallb (λ c, (nat_of_ascii c <? 128)%nat) (list_ascii_of_string s).

(** [str.isspace] on the ASCII range. *)
Definition is_space (c : ascii) : bool :=
  let n := nat_of_ascii c in
  (n =? 32)%nat || ((9 <=? n)%nat && (n <=? 13)%nat)
  || ((28 <=? n)%nat && (n <=? 31)%nat).

Fixpoint str_lstrip (s : string) : string :=
  match s with
  | EmptyString => EmptyString
  | String c r => if is_space c then str_lstrip r else s
  end.

Fixpoint str_rev_onto (s acc : string) : string :=
  match s with
  | EmptyString => acc
  | String c r => str_rev_onto r (String c acc)
  end.

Definition str_rev (s : string) : string := str_rev_onto s EmptyString.

(** [str.strip()] *)
Definition str_strip (s : string) : string :=
  str_rev (str_lstrip (str_rev (str_lstrip s))).

(** [str(path)] for an absolute path. *)
Definition path_str (p : Path) : string :=
  match p with
  | [] => "/"
  | _ => foldr (λ c acc, "/" ++ c ++ acc) EmptyString p
  end.

(** The options of the command, as [typer] hands them to [main]. *)
Record Options : Type := mkOptions {
  opt_input_dir : Path;
  opt_output_dir : option Path;
  opt_workers : option Z;
  opt_ocr_jobs : option Z;
  opt_initial_scan : bool;
  opt_retries : Z;
  opt_use_polling : option bool;
  opt_loglevel : string;
  opt_output_type : string
}.

(** The two directories, resolved; [None] when [resolve] raises. Paths
    are absolute here, so that [expanduser] leaves them as they are. *)
Definition main_dirs (env : Env) (o : Options) : option (Path * Path) :=
  input ← resolve env (opt_input_dir o);
  output ← match opt_output_dir o with
           | None => resolve env (joinpath input "base64")
           | Some d => resolve env d
           end;
  Some (input, output).

(** [str(input_dir).startswith("/mnt/")] unless the option is given. *)
Definition main_use_polling (o : Options) (input : Path) : bool :=
  match opt_use_polling o with
  | Some b => b
  | None => String.prefix "/mnt/" (path_str input)
  end.

(** [max(1, (os.cpu_count() or 2) // 2)] unless the option is given. *)
Definition main_workers (env : Env) (o : Options) : Z :=
  match opt_workers o with
  | Some w => w
  | None =>
      let cpu := match cpu_count env with
                 | Some c => if (c =? 0)%Z then 2%Z else c
                 | None => 2%Z
                 end in
      Z.max 1 (cpu / 2)
  end.

(** [workers or 1], used for the test on [ocr_jobs] and for [max_workers]. *)
Definition workers_or_1 (workers : Z) : Z :=
  if (workers =? 0)%Z then 1%Z else workers.

(** [if (workers or 1) > 1 and (ocr_jobs is None): ocr_jobs = 1] *)
Definition main_ocr_jobs (workers : Z) (o : Options) : option Z :=
  match opt_ocr_jobs o with
  | None => if (1 <? workers_or_1 workers)%Z then Some 1%Z else None
  | Some n => Some n
  end.

(** [(output_type or "pdf").strip().lower()], replaced by ["pdf"] with a
    warning (the boolean) when it is neither ["pdf"] nor ["pdfa"]; for an
    option of the ASCII range. *)
Definition main_output_type (output_type : string) : string * bool :=
  let t := str_lower (str_strip (if String.eqb output_type EmptyString
                                 then "pdf" else output_type)) in
  if String.eqb t "pdf" || String.eqb t "pdfa" then (t, false)
  else ("pdf", true).

(** The handler that [main] builds and the size of its pool; [None] when
    [main] raises before: [resolve] on a directory, or
    [ThreadPoolExecutor], which refuses [max_workers <= 0] with a
    [ValueError]. *)
Definition main_handler (env : Env) (o : Options) : option (Handler * Z) :=
  '(input, output) ← main_dirs env o;
  let workers := main_workers env o in
  if (workers_or_1 workers <=? 0)%Z then None
  else
    Some (mkHandler input output (main_use_polling o input) (opt_retries o)
            (main_ocr_jobs workers o) (main_output_type (opt_output_type o)).1,
          workers_or_1 workers).

(** [if initial_scan: for pdf in sorted(input_dir.rglob("*.pdf")): ...] on
    the list of the files found. *)
Definition main_scan (h : Handler) (env : Env) (o : Options) (found : list Path)
    (s : Sys) : Sys :=
  if opt_initial_scan o then initial_scan h env found s else s.

(** Options with the defaults of the command line. *)
Definition default_options (input : Path) : Options :=
  mkOptions input None None None true 30 None "INFO" "pdf".


(** An environment like [sample_env], with [pikepdf] installed and able
    to open the file from the poll of index [from] on. *)
Definition probe_env (l : list (option Z)) (later : bool) (from : nat) : Env :=
  mkEnv Some true
    (λ _ i, mkObs (ob_exists (obs_of l later i)) (from <=? i)%nat
              (ob_stat (obs_of l later i)))
    None (Some 4%Z) None.


(** The files after both artifacts of [path] have been put in place with
    the bytes [pdf_bytes], from the files [f] before. *)
Definition artifacts_written (h : Handler) (path : Path) (pdf_bytes : list byte)
    (f : gmap Path (list byte)) : gmap Path (list byte) :=
  <[out_path h path := list_byte_of_string (b64encode pdf_bytes)]>
    (delete (tmp_path h path)
       (<[tmp_path h path := list_byte_of_string (b64encode pdf_bytes)]>
          (<[pdf_out_path h path := pdf_bytes]>
             (delete (tmp_pdf_out h path)
                (<[tmp_pdf_out h path := pdf_bytes]> f))))).


(** A path component holds no separator. *)
Definition no_slash (c : string) : bool :=
  forallb (λ a, negb (Ascii.eqb a "/")) (list_ascii_of_string c).

(* ===================================================================== *)
(** * Properties *)
(* ===================================================================== *)

(** ** Base64 *)

Ltac divmod_lia := intros; zify; Z.to_euclidean_division_equations; lia.

Lemma b64_index_char (n : N) : (n < 64)%N → b64_index (b64_char n) = Some n.
Proof.
  intros Hn.
  assert (Hall : forallb (λ k, match b64_index (b64_char (N.of_nat k)) with
                               | Some m => N.eqb m (N.of_nat k)
                               | None => false
                               end) (seq 0 64) = true)
    by (vm_compute; reflexivity).
  rewrite forallb_forall in Hall.
  specialize (Hall (N.to_nat n)). rewrite N2Nat.id in Hall.
  destruct (b64_index (b64_char n)) as [m|].
  - f_equal. apply N.eqb_eq, Hall, in_seq. lia.
  - exfalso. enough (false = true) by discriminate. apply Hall, in_seq. lia.
Qed.

Lemma b64_char_not_pad (n : N) : (n < 64)%N → Ascii.eqb (b64_char n) PAD = false.
Proof.
  intros Hn.
  assert (Hall : forallb (λ k, negb (Ascii.eqb (b64_char (N.of_nat k)) PAD))
                   (seq 0 64) = true) by (vm_compute; reflexivity).
  rewrite forallb_forall in Hall.
  specialize (Hall (N.to_nat n)). rewrite N2Nat.id in Hall.
  apply negb_true_iff, Hall, in_seq. lia.
Qed.

Lemma byte_lt (a : byte) : (Byte.to_N a < 256)%N.
Proof. pose proof (Byte.to_N_bounded a). lia. Qed.

Lemma sextets_first (x y : N) :
  (x < 256 → y < 256 → x / 4 * 4 + (x mod 4 * 16 + y / 16) / 16 = x)%N.
Proof. divmod_lia. Qed.

Lemma sextets_second (x y z : N) :
  (x < 256 → y < 256 → z < 256 →
   (x mod 4 * 16 + y / 16) mod 16 * 16 + (y mod 16 * 4 + z / 64) / 4 = y)%N.
Proof. divmod_lia. Qed.

Lemma sextets_third (y z : N) :
  (y < 256 → z < 256 → (y mod 16 * 4 + z / 64) mod 4 * 64 + z mod 64 = z)%N.
Proof. divmod_lia. Qed.

(** Induction on lists three elements at a time, as the encoder recurses. *)
Lemma list_ind3 {A} (P : list A → Prop) :
  P [] → (∀ a, P [a]) → (∀ a b, P [a; b]) →
  (∀ a b c l, P l → P (a :: b :: c :: l)) → ∀ l, P l.
Proof.
  intros H0 H1 H2 H3 l.
  enough (P l ∧ (∀ a, P (a :: l)) ∧ (∀ a b, P (a :: b :: l))) by tauto.
  induction l as [|x l (IH0 & IH1 & IH2)]; [by auto|].
  split; [apply IH1|]. split; [intros; apply IH2|].
  intros a b. by apply H3.
Qed.

Lemma b64decode_b64encode (bs : list byte) : b64decode (b64encode bs) = Some bs.
Proof.
  induction bs as [|a|a b|a b c l IH] using list_ind3.
  - reflexivity.
  - pose proof (byte_lt a).
    cbn [b64encode b64decode].
    rewrite !b64_index_char by divmod_lia. cbn [mbind option_bind].
    rewrite Ascii.eqb_refl. cbn.
    replace (_ + _)%N with (Byte.to_N a) by divmod_lia.
    by rewrite Byte.of_to_N.
  - pose proof (byte_lt a). pose proof (byte_lt b).
    cbn [b64encode b64decode].
    rewrite !b64_index_char by divmod_lia. cbn [mbind option_bind].
    rewrite b64_char_not_pad by divmod_lia. rewrite Ascii.eqb_refl. cbn.
    replace (_ / 4 * 4 + _)%N with (Byte.to_N a) by divmod_lia.
    replace (_ + _)%N with (Byte.to_N b) by divmod_lia.
    by rewrite !Byte.of_to_N.
  - pose proof (byte_lt a). pose proof (byte_lt b). pose proof (byte_lt c).
    cbn [b64encode b64decode].
    rewrite !b64_index_char by divmod_lia. cbn [mbind option_bind].
    rewrite !b64_char_not_pad by divmod_lia.
    rewrite sextets_first, sextets_second, sextets_third by lia.
    rewrite !Byte.of_to_N. cbn [mbind option_bind]. by rewrite IH.
Qed.

(** ** Strings and paths *)

Lemma str_take_drop (n : nat) (s : string) : str_take n s ++ str_drop n s = s.
Proof.
  revert s. induction n as [|n IH]; intros [|c r]; try done.
  change (String c (str_take n r ++ str_drop n r) = String c r).
  f_equal. apply IH.
Qed.

Lemma str_drop_length (n : nat) (s : string) :
  String.length (str_drop n s) = (String.length s - n)%nat.
Proof. revert s. induction n as [|n IH]; intros [|c r]; cbn; auto. Qed.

Lemma rfind_dot_lt (s : string) (i : nat) :
  rfind_dot s = Some i → (i < String.length s)%nat.
Proof.
  revert i. induction s as [|c r IH]; intros i; cbn; [done|].
  destruct (rfind_dot r) as [j|].
  - intros [= <-]. specialize (IH j eq_refl). lia.
  - destruct (Ascii.eqb c "."); intros [= <-]. lia.
Qed.

Lemma str_app_assoc (a b c : string) : (a ++ b) ++ c = a ++ (b ++ c).
Proof.
  induction a as [|x a IH]; [done|].
  change (String x ((a ++ b) ++ c) = String x (a ++ (b ++ c))). by f_equal.
Qed.

Lemma str_app_inv_head (s a b : string) : s ++ a = s ++ b → a = b.
Proof. induction s as [|c s IH]; cbn; [done|]. intros [= H]. auto. Qed.

Lemma path_name_joinpath (d : Path) (nm : string) : path_name (joinpath d nm) = nm.
Proof. unfold path_name, joinpath. apply last_last. Qed.

Lemma path_parent_joinpath (d : Path) (nm : string) :
  path_parent (joinpath d nm) = d.
Proof. unfold path_parent, joinpath. apply removelast_last. Qed.

Lemma joinpath_inj (d : Path) (a b : string) : joinpath d a = joinpath d b → a = b.
Proof. unfold joinpath. intros H. apply app_inv_head in H. congruence. Qed.

(** Appending [".tmp"] to the suffix, as both temporary names are made,
    appends it to the name. *)
Lemma with_suffix_tmp (p : Path) :
  with_suffix p (path_suffix p ++ ".tmp")
  = joinpath (path_parent p) (path_name p ++ ".tmp").
Proof.
  unfold with_suffix. f_equal.
  destruct (String.eqb_spec (path_suffix p) EmptyString) as [->|Hne]; [done|].
  unfold path_suffix in *.
  destruct (suffix_at (path_name p)) as [i|] eqn:Hi; [|done].
  rewrite str_drop_length.
  unfold suffix_at in Hi.
  destruct (rfind_dot (path_name p)) as [j|] eqn:Hj; [|done].
  apply rfind_dot_lt in Hj.
  destruct (_ && _); [|done]. injection Hi as ->.
  replace (String.length (path_name p) - (String.length (path_name p) - i))%nat
    with i by lia.
  rewrite <- str_app_assoc. by rewrite str_take_drop.
Qed.

Lemma tmp_pdf_out_eq (h : Handler) (path : Path) :
  tmp_pdf_out h path
  = joinpath (output_dir h) ((path_stem path ++ "_ocr.pdf") ++ ".tmp").
Proof.
  unfold tmp_pdf_out. rewrite with_suffix_tmp. unfold pdf_out_path.
  by rewrite path_parent_joinpath, path_name_joinpath.
Qed.

Lemma tmp_path_eq (h : Handler) (path : Path) :
  tmp_path h path = joinpath (output_dir h) ((path_stem path ++ ".base64") ++ ".tmp").
Proof.
  unfold tmp_path. rewrite with_suffix_tmp. unfold out_path.
  by rewrite path_parent_joinpath, path_name_joinpath.
Qed.

Lemma pdf_out_path_ne_out_path (h : Handler) (path : Path) :
  pdf_out_path h path ≠ out_path h path.
Proof.
  unfold pdf_out_path, out_path. intros H.
  apply joinpath_inj, str_app_inv_head in H. discriminate.
Qed.

Lemma pdf_out_path_ne_tmp_path (h : Handler) (path : Path) :
  pdf_out_path h path ≠ tmp_path h path.
Proof.
  rewrite tmp_path_eq. unfold pdf_out_path. intros H.
  apply joinpath_inj in H. rewrite str_app_assoc in H.
  apply str_app_inv_head in H. discriminate.
Qed.

Lemma out_path_ne_tmp_path (h : Handler) (path : Path) :
  out_path h path ≠ tmp_path h path.
Proof.
  rewrite tmp_path_eq. unfold out_path. intros H.
  apply joinpath_inj in H. rewrite str_app_assoc in H.
  apply str_app_inv_head in H. discriminate.
Qed.

(** ** The readiness loop *)

Lemma poll_from_app hp obs i n m st :
  poll_from hp obs i (n + m) st =
  match poll_from hp obs i n st with
  | Return b => Return b
  | Next st' => poll_from hp obs (i + n) m st'
  end.
Proof.
  revert i st. induction n as [|n IH]; intros i st; cbn.
  - by rewrite Nat.add_0_r.
  - destruct (poll_iteration hp (obs i) st); [done|].
    rewrite IH. by rewrite Nat.add_succ_r.
Qed.

(** The loop returns nothing but [True]. *)
Lemma poll_iteration_Return hp o st b : poll_iteration hp o st = Return b → b = true.
Proof.
  unfold poll_iteration. repeat case_match; congruence.
Qed.

(** An iteration that does not find the path goes on with the state it
    was given. *)
Lemma poll_iteration_missing hp o st :
  ob_exists o = false → poll_iteration hp o st = Next st.
Proof. intros He. unfold poll_iteration. by rewrite He. Qed.

Section Readiness.

(** One path, polled in one environment. *)
Context (env : Env) (path : Path).

Lemma after_polls_S n :
  after_polls env path (S n) =
  match after_polls env path n with
  | Return b => Return b
  | Next st => poll_iteration (HAVE_PIKEPDF env) (polls env path n) st
  end.
Proof.
  unfold after_polls. replace (S n) with (n + 1)%nat by lia.
  rewrite poll_from_app. destruct (poll_from _ _ 0 n poll_init); [done|].
  cbn. by destruct (poll_iteration _ _ _).
Qed.

Lemma after_polls_Return n b : after_polls env path n = Return b → b = true.
Proof.
  induction n as [|n IH]; [done|]. rewrite after_polls_S.
  destruct (after_polls env path n); [done|]. apply poll_iteration_Return.
Qed.

(** A return of the loop is kept by the iterations that would follow. *)
Lemma after_polls_Return_le n m b :
  (n ≤ m)%nat → after_polls env path n = Return b → after_polls env path m = Return b.
Proof.
  intros Hle H. unfold after_polls in *.
  replace m with (n + (m - n))%nat by lia. rewrite poll_from_app. by rewrite H.
Qed.

(** C7, as the code has it. A poll at which [path.exists()] is false uses
    up one iteration of the budget and leaves both loop variables, the
    stability counter and the last size, as they were (the counter goes
    back to zero only for a file that is there at [exists()] and gone at
    [stat()], whose size counts as -1); when the budget is exhausted the
    function returns what [path.exists()] reports then (in particular
    for a path absent at every poll), and being total it raises nothing. *)
Theorem missing_poll_keeps_state up retries :
  (∀ hp o st, ob_exists o = false → poll_iteration hp o st = Next st)
  ∧ (∀ hp obs i n st, ob_exists (obs i) = false →
       poll_from hp obs i (S n) st = poll_from hp obs (S i) n st)
  ∧ (∀ k st, after_polls env path k = Next st →
       ob_exists (polls env path k) = false →
       after_polls env path (S k) = Next st)
  ∧ (∀ hp o st, ob_exists o = true → hp && ob_opens o = false →
       ob_stat o = None → poll_iteration hp o st = Next (mkPoll (-1) 0))
  ∧ (∀ st, poll_all env path retries = Next st →
       wait_for_file_ready env path up retries
       = ob_exists (polls env path (budget retries)))
  ∧ ((∀ i, (i < budget retries)%nat → ob_exists (polls env path i) = false) →
       wait_for_file_ready env path up retries
       = ob_exists (polls env path (budget retries))).
Proof.
  split; [exact poll_iteration_missing|].
  split; [intros hp obs i n st He; cbn; by rewrite poll_iteration_missing|].
  split; [intros k st Hk He; rewrite after_polls_S, Hk;
          by apply poll_iteration_missing|].
  split; [intros hp o st He Hp Hs; unfold poll_iteration; by rewrite He, Hp, Hs|].
  split; [intros st Hst; unfold wait_for_file_ready; by rewrite Hst|].
  intros Hnone. unfold wait_for_file_ready, poll_all.
  enough (Hn : ∀ n, (n ≤ budget retries)%nat → after_polls env path n = Next poll_init)
    by (by rewrite Hn).
  induction n as [|n IH]; intros Hle; [done|].
  rewrite after_polls_S, IH by lia. apply poll_iteration_missing, Hnone. lia.
Qed.

(** From here on the structural probe is unavailable or fails. *)
Hypothesis Hprobe : probe_fails env path.

(** The iteration on a file that exists: the size check alone decides. *)
Lemma poll_iteration_size i sz st :
  sees env path i sz →
  poll_iteration (HAVE_PIKEPDF env) (polls env path i) st =
  if (0 <? sz)%Z && (sz =? last_size st)%Z then
    if (2 <=? stable_count st + 1)%Z then Return true
    else Next (mkPoll sz (stable_count st + 1))
  else Next (mkPoll sz 0).
Proof.
  intros [He Hs]. unfold poll_iteration. rewrite He, Hs. cbn.
  destruct Hprobe as [-> | Hp]; [done|]. rewrite Hp. by rewrite andb_false_r.
Qed.

(** C6, as the code has it. With the structural probe unavailable or
    failing, the stability fallback reports the file ready once its size
    has been observed identical and positive at three consecutive polls,
    that is, at the second consecutive poll whose size equals that of the
    poll before it: when poll [k] is the first to observe the final size
    [sz] and polls [k+1] and [k+2] observe it again, the loop is still
    running after poll [k+1] (with one stable check counted) and returns
    [True] at poll [k+2]. *)
Theorem size_stable_ready up retries k sz st :
  (0 < sz)%Z →
  (k + 2 < budget retries)%nat →
  (∀ i, (k ≤ i ≤ k + 2)%nat → sees env path i sz) →
  after_polls env path k = Next st →
  last_size st ≠ sz →
  after_polls env path (k + 1) = Next (mkPoll sz 0)
  ∧ after_polls env path (k + 2) = Next (mkPoll sz 1)
  ∧ after_polls env path (k + 3) = Return true
  ∧ wait_for_file_ready env path up retries = true.
Proof.
  intros Hsz Hk Hsees Hreach Hlast.
  assert (Hpos : (0 <? sz)%Z = true) by (apply Z.ltb_lt; lia).
  assert (H1 : after_polls env path (k + 1) = Next (mkPoll sz 0)).
  { replace (k + 1)%nat with (S k) by lia.
    rewrite after_polls_S, Hreach.
    rewrite (poll_iteration_size k sz) by (apply Hsees; lia).
    destruct (Z.eqb_spec sz (last_size st)); [congruence|].
    by rewrite andb_false_r. }
  assert (H2 : after_polls env path (k + 2) = Next (mkPoll sz 1)).
  { replace (k + 2)%nat with (S (k + 1)) by lia.
    rewrite after_polls_S, H1.
    rewrite (poll_iteration_size (k + 1) sz) by (apply Hsees; lia).
    cbn. by rewrite Z.eqb_refl, Hpos. }
  assert (H3 : after_polls env path (k + 3) = Return true).
  { replace (k + 3)%nat with (S (k + 2)) by lia.
    rewrite after_polls_S, H2.
    rewrite (poll_iteration_size (k + 2) sz) by (apply Hsees; lia).
    cbn. by rewrite Z.eqb_refl, Hpos. }
  repeat split; try done.
  unfold wait_for_file_ready, poll_all.
  by rewrite (after_polls_Return_le (k + 3) (budget retries) true) by (lia || done).
Qed.

(** C10. With the structural probe unavailable or failing, a file whose
    size is 0 at every poll never passes the stability check: the loop
    runs through all the iterations of its budget with the counter at
    zero, and the answer is what [path.exists()] reports once the budget
    is exhausted. *)
Theorem empty_file_never_stable up retries :
  (∀ i, (i < budget retries)%nat → ob_stat (polls env path i) = Some 0%Z) →
  (∀ n, (n ≤ budget retries)%nat →
     ∃ st, after_polls env path n = Next st ∧ stable_count st = 0%Z)
  ∧ wait_for_file_ready env path up retries
    = ob_exists (polls env path (budget retries)).
Proof.
  intros Hz.
  assert (Hn : ∀ n, (n ≤ budget retries)%nat →
                 ∃ st, after_polls env path n = Next st ∧ stable_count st = 0%Z).
  { induction n as [|n IH]; intros Hle; [by exists poll_init|].
    destruct IH as (st & Hst & Hc); [lia|].
    rewrite after_polls_S, Hst.
    destruct (ob_exists (polls env path n)) eqn:He.
    - rewrite (poll_iteration_size n 0) by (split; [done | apply Hz; lia]).
      cbn. by eexists.
    - exists st. split; [|done]. by apply poll_iteration_missing. }
  split; [exact Hn|].
  unfold wait_for_file_ready, poll_all.
  by destruct (Hn (budget retries)) as (st & -> & _).
Qed.

End Readiness.

(** The scenario of the specification: a file that grows from 0 to 500
    bytes over three poll intervals and then stops is reported ready at
    the sixth poll, the second one after the poll that first saw 500. *)
Lemma size_stable_ready_witness :
  after_polls (sample_env (Some <$> [0; 200; 400; 500; 500; 500]%Z) false None)
    ["in"; "partial.pdf"] 5 = Next (mkPoll 500 1)
  ∧ wait_for_file_ready
      (sample_env (Some <$> [0; 200; 400; 500; 500; 500]%Z) false None)
      ["in"; "partial.pdf"] false 30 = true.
Proof.
  pose proof (size_stable_ready
    (sample_env (Some <$> [0; 200; 400; 500; 500; 500]%Z) false None)
    ["in"; "partial.pdf"] (or_introl eq_refl) false 30 3 500 (mkPoll 400 0)) as H.
  destruct H as (_ & H2 & _ & H4).
  - lia.
  - vm_compute. lia.
  - intros i Hi. assert (i = 3 ∨ i = 4 ∨ i = 5)%nat as [-> | [-> | ->]] by lia;
      by split.
  - reflexivity.
  - cbn. lia.
  - split; [exact H2 | exact H4].
Defined.

(** C6, as stated, fails: a size observed identical and positive at two
    consecutive polls does not make the prober report the file ready.
    With sizes 500, 500, 600, 600 the loop is still running after the
    second poll, with one stable check counted, and after the fourth;
    the file being gone by then, the answer is [False]. *)
Lemma two_equal_polls_not_ready :
  ¬ (∀ env path up retries k sz,
       probe_fails env path → (0 < sz)%Z → (k + 1 < budget retries)%nat →
       sees env path k sz → sees env path (k + 1) sz →
       wait_for_file_ready env path up retries = true)
  ∧ after_polls (sample_env (Some <$> [500; 500; 600; 600]%Z) false None)
      ["in"; "partial.pdf"] 2 = Next (mkPoll 500 1).
Proof.
  split; [|reflexivity].
  intros H.
  specialize (H (sample_env (Some <$> [500; 500; 600; 600]%Z) false None)
                ["in"; "partial.pdf"] false 4%Z 0%nat 500%Z).
  assert (Hf : wait_for_file_ready
                 (sample_env (Some <$> [500; 500; 600; 600]%Z) false None)
                 ["in"; "partial.pdf"] false 4 = false) by reflexivity.
  rewrite H in Hf; [discriminate| by left | lia | vm_compute; lia | by split | by split].
Qed.

(** A path seen with 5 bytes twice and then not found keeps its count of
    one stable check; a path never found within a budget of three is
    reported as [path.exists()] answers afterwards. *)
Lemma missing_poll_keeps_state_witness :
  after_polls (sample_env [Some 5; Some 5; None; Some 5]%Z false None)
    ["in"; "a.pdf"] 3 = Next (mkPoll 5 1)
  ∧ wait_for_file_ready (sample_env [None; None; None] true None)
      ["in"; "a.pdf"] false 3 = true.
Proof.
  pose proof (missing_poll_keeps_state
                (sample_env [Some 5; Some 5; None; Some 5]%Z false None)
                ["in"; "a.pdf"] false 4) as (_ & _ & H3 & _).
  pose proof (missing_poll_keeps_state
                (sample_env [None; None; None] true None)
                ["in"; "a.pdf"] false 3) as (_ & _ & _ & _ & _ & H5).
  split.
  - apply H3; reflexivity.
  - rewrite H5; [reflexivity|].
    intros i Hi. assert (i = 0 ∨ i = 1 ∨ i = 2)%nat as [-> | [-> | ->]]
      by (vm_compute in Hi; lia); reflexivity.
Defined.

(** C7, as stated, fails: the poll that does not find the path does not
    reset the stability counter. After two polls that saw 5 bytes and a
    third that found nothing the counter is still 1, so a fourth poll
    that sees 5 bytes again returns [True]; had the counter been reset,
    the budget of four would have run out on a path that is gone. *)
Lemma missing_poll_does_not_reset :
  ¬ (∀ env path k st st',
       after_polls env path k = Next st →
       ob_exists (polls env path k) = false →
       after_polls env path (S k) = Next st' →
       stable_count st' = 0%Z)
  ∧ wait_for_file_ready (sample_env [Some 5; Some 5; None; Some 5]%Z false None)
      ["in"; "a.pdf"] false 4 = true.
Proof.
  split; [|reflexivity].
  intros H.
  specialize (H (sample_env [Some 5; Some 5; None; Some 5]%Z false None)
                ["in"; "a.pdf"] 2%nat (mkPoll 5 1) (mkPoll 5 1)
                eq_refl eq_refl eq_refl).
  discriminate H.
Qed.

(** An empty file polled four times: the answer is that of
    [path.exists()] after the loop, whichever it is. *)
Lemma empty_file_never_stable_witness :
  wait_for_file_ready (sample_env (Some <$> [0; 0; 0; 0]%Z) true None)
    ["in"; "empty.pdf"] false 4 = true
  ∧ wait_for_file_ready (sample_env (Some <$> [0; 0; 0; 0]%Z) false None)
      ["in"; "empty.pdf"] false 4 = false.
Proof.
  assert (Hz : ∀ later i, (i < budget 4)%nat →
            ob_stat (polls (sample_env (Some <$> [0; 0; 0; 0]%Z) later None)
                       ["in"; "empty.pdf"] i) = Some 0%Z).
  { intros later i Hi.
    assert (i = 0 ∨ i = 1 ∨ i = 2 ∨ i = 3)%nat as [-> | [-> | [-> | ->]]]
      by (vm_compute in Hi; lia); reflexivity. }
  split.
  - exact (proj2 (empty_file_never_stable
                    (sample_env (Some <$> [0; 0; 0; 0]%Z) true None)
                    ["in"; "empty.pdf"] (or_introl eq_refl) false 4 (Hz true))).
  - exact (proj2 (empty_file_never_stable
                    (sample_env (Some <$> [0; 0; 0; 0]%Z) false None)
                    ["in"; "empty.pdf"] (or_introl eq_refl) false 4 (Hz false))).
Defined.

(** ** The world monad *)

Ltac run_M :=
  unfold try_except, mbind, M_bind, mret, M_ret, record, get_world, set_files,
    set_dirs, log, raise; cbn.

Lemma with_logs_nil w : with_logs w [] = w.
Proof. destruct w. unfold with_logs. cbn. by rewrite app_nil_r. Qed.

Lemma new_logs_with_logs w lg : new_logs w (with_logs w lg) = lg.
Proof. unfold new_logs, with_logs. cbn. apply drop_app_length. Qed.

Lemma read_bytes_world p w : (read_bytes p w).2 = w.
Proof. unfold read_bytes. run_M. by repeat case_match. Qed.

(** ** [ocr_to_bytes] *)

Lemma with_logs_app w lg lg' :
  with_logs (with_logs w lg) lg' = with_logs w (lg ++ lg').
Proof. unfold with_logs. cbn. by rewrite (assoc_L (++)). Qed.

Lemma ocr_message_engine_records lg :
  Forall (λ x, ocr_message x = true) (engine_records lg).
Proof. apply Forall_forall. intros x [y [-> _]]%list_elem_of_fmap. done. Qed.

Lemma ocr_message_fallback_record o :
  Forall (λ x, ocr_message x = true) (fallback_record o).
Proof.
  unfold fallback_record.
  destruct (engine_raises o) as [[]|]; [by repeat constructor ..|].
  destruct (engine_scratch o) as [[|b data]|]; by repeat constructor.
Qed.

(** An unreadable input: the cause is wrapped and nothing else happens. *)
Lemma ocr_to_bytes_unreadable env path jobs ot w e :
  (read_bytes path w).1 = Raise e →
  ocr_to_bytes env path jobs ot w = (Raise (RuntimeError path e), w).
Proof.
  intros He. pose proof (read_bytes_world path w) as Hw.
  destruct (read_bytes path w) as [[original|e'] w0] eqn:Hr; cbn in *; subst w0;
    [done|]. injection He as ->.
  unfold ocr_to_bytes. run_M. by rewrite Hr.
Qed.

(** A readable input without the engine. *)
Lemma ocr_to_bytes_not_installed env path jobs ot w original :
  read_bytes path w = (Ok original, w) →
  ocrmypdf env = None →
  ocr_to_bytes env path jobs ot w
  = (Ok (original, true), with_logs w [(WARNING, MsgOcrNotInstalled)]).
Proof. intros Hr Hocr. unfold ocr_to_bytes. run_M. by rewrite Hr, Hocr. Qed.

(** A readable input, the engine installed, no scratch file to be had. *)
Lemma ocr_to_bytes_no_scratch env path jobs ot w original ocr e :
  read_bytes path w = (Ok original, w) →
  ocrmypdf env = Some ocr →
  scratch_error env = Some e →
  ocr_to_bytes env path jobs ot w = (Raise e, w).
Proof.
  intros Hr Hocr Hs. unfold ocr_to_bytes. run_M. by rewrite Hr, Hocr, Hs.
Qed.

(** A readable input handed to the engine: the records of the engine,
    the record of the fallback if any, and on the way out the result of
    the [try] block or the failure to remove the scratch file. *)
Lemma ocr_to_bytes_run env path jobs ot w original ocr :
  read_bytes path w = (Ok original, w) →
  ocrmypdf env = Some ocr →
  scratch_error env = None →
  let o := ocr (ocr_args env path jobs ot) (files w) in
  ocr_to_bytes env path jobs ot w
  = (match engine_scratch o with
     | Some _ => Ok (engine_result original o)
     | None => Raise FileNotFoundError
     end,
     with_logs w (engine_records (engine_logs o) ++ fallback_record o)).
Proof.
  intros Hr Hocr Hs o. unfold ocr_to_bytes. run_M. rewrite Hr, Hocr, Hs.
  unfold engine_call, engine_log, scratch_read, scratch_exit, engine_result,
    fallback_record, with_logs. run_M. fold o.
  destruct (engine_raises o) as [e|], (engine_scratch o) as [[|b data]|];
    try destruct e; cbn; rewrite ?app_nil_r, ?(assoc_L (++)); reflexivity.
Qed.

Lemma ocr_to_bytes_cases env path jobs ot w :
  (∃ e, (read_bytes path w).1 = Raise e
        ∧ ocr_to_bytes env path jobs ot w = (Raise (RuntimeError path e), w))
  ∨ (∃ original r lg,
        read_bytes path w = (Ok original, w)
        ∧ ocr_to_bytes env path jobs ot w = (r, with_logs w lg)
        ∧ Forall (λ x, ocr_message x = true) lg).
Proof.
  pose proof (read_bytes_world path w) as Hw.
  destruct (read_bytes path w) as [[original|e] w0] eqn:Hr; cbn in Hw; subst w0.
  - right. exists original.
    destruct (ocrmypdf env) as [ocr|] eqn:Hocr.
    + destruct (scratch_error env) as [e|] eqn:Hs.
      * exists (Raise e), []. rewrite with_logs_nil.
        split; [done|]. split; [|done].
        by apply ocr_to_bytes_no_scratch with original ocr.
      * eexists _, _. split; [done|]. split.
        { by apply ocr_to_bytes_run. }
        apply Forall_app. split.
        { apply ocr_message_engine_records. }
        apply ocr_message_fallback_record.
    + eexists _, _. split; [done|]. split.
      { by apply ocr_to_bytes_not_installed. }
      by repeat constructor.
  - left. exists e. split; [done|].
    apply ocr_to_bytes_unreadable. by rewrite Hr.
Qed.

(** C3. An engine that fails and takes its output file away. The input
    is readable and the engine raises an error of its own, yet
    [ocr_to_bytes] does not return the original bytes: the error is
    caught and the fallback announced, and then, on the way out of the
    [with] block that is around the [try] block, the removal of the
    scratch file raises [FileNotFoundError]; the task reports a failure
    and writes no artifact. *)
Theorem engine_failure_escapes :
  let env := sample_env (Some <$> [3; 3; 3]%Z) true (Some failing_engine) in
  let path := ["in"; "report.pdf"] in
  let w := sample_world true in
  read_bytes path w = (Ok ["M"%byte; "a"%byte; "n"%byte], w)
  ∧ engine_raises (failing_engine (ocr_args env path None "pdf") (files w))
    = Some (OcrError 2)
  ∧ ocr_to_bytes env path None "pdf" w
    = (Raise FileNotFoundError,
       with_logs w [(ERROR, MsgEngine "giving up");
                    (WARNING, MsgOcrFailed (OcrError 2))])
  ∧ _handle_path sample_handler env path w
    = (Ok (),
       with_logs w [(ERROR, MsgEngine "giving up");
                    (WARNING, MsgOcrFailed (OcrError 2));
                    (ERROR, MsgFailedToProcess path FileNotFoundError)]).
Proof. by vm_compute. Qed.

(** ** [_handle_path] *)

(** The function by its three exits before the [try] block. *)
Lemma _handle_path_unfold h env path w :
  _handle_path h env path w =
  if passes_filters h env path w then
    if wait_for_file_ready env path (use_polling h) (retries h) then
      try_except (ocr_and_publish h env path)
        (λ e, log ERROR (MsgFailedToProcess path e)) w
    else (Ok (), with_logs w [(WARNING, MsgNotReady path)])
  else (Ok (), w).
Proof.
  unfold _handle_path, passes_filters, is_dir. run_M.
  destruct (dir_exists w path); cbn; [done|].
  destruct (String.eqb _ ".pdf"); cbn; [|done].
  destruct (str_endswith _ "_ocr.pdf"); cbn; [done|].
  destruct (str_endswith _ ".ocr.pdf"); cbn; [done|].
  destruct (negb (bool_decide _) && is_within _ _ _); cbn; [done|].
  by destruct (wait_for_file_ready _ _ _ _).
Qed.

(** The work unit: the handler on the world, then the [discard]. *)
Lemma _task_eq h env path s :
  _task h env path s
  = ((_handle_path h env path (world s)).1,
     discard path (set_world s (_handle_path h env path (world s)).2)).
Proof.
  unfold _task, try_finally, in_world.
  by destruct (_handle_path h env path (world s)).
Qed.

(** The PDF artifact: the block never raises; it either puts the bytes
    in place and says so, or logs a warning and leaves at most the
    temporary file behind. *)
Lemma write_ocr_pdf_cases h path bytes u w :
  ∃ w', write_ocr_pdf h path bytes u w = (Ok (), w')
    ∧ dirs w' = dirs w
    ∧ ((files w' = <[pdf_out_path h path := bytes]>
                     (delete (tmp_pdf_out h path)
                        (<[tmp_pdf_out h path := bytes]> (files w)))
        ∧ logs w' = (logs w ++ [(INFO, MsgWrotePdf (pdf_out_path h path) u)])%list)
       ∨ (∃ e, logs w' = (logs w ++ [(WARNING, MsgPdfWriteFailed e)])%list
               ∧ (files w' = files w
                  ∨ files w' = <[tmp_pdf_out h path := bytes]> (files w)))).
Proof.
  unfold write_ocr_pdf, write_bytes, os_replace. run_M.
  repeat case_match; simplify_eq/=;
    try match goal with
        | H : <[_ := _]> _ !! _ = _ |- _ => rewrite lookup_insert_eq in H
        end;
    simplify_eq; eexists; (split; [reflexivity|]); (split; [reflexivity|]);
    cbn; eauto 6.
Qed.

(** The base64 artifact: either the text is in place and reported, or
    the block raises and has logged nothing. *)
Lemma write_base64_cases h path bytes u w :
  (∃ w', write_base64 h path bytes u w = (Ok (), w')
     ∧ files w' = <[out_path h path := list_byte_of_string (b64encode bytes)]>
                    (delete (tmp_path h path)
                       (<[tmp_path h path := list_byte_of_string (b64encode bytes)]>
                          (files w)))
     ∧ logs w' = (logs w ++ [(INFO, MsgWroteBase64 (out_path h path) u)])%list)
  ∨ (∃ e w', write_base64 h path bytes u w = (Raise e, w')
       ∧ logs w' = logs w).
Proof.
  unfold write_base64, write_text, mkdir_parents, write_bytes, os_replace. run_M.
  repeat case_match; simplify_eq/=;
    try match goal with
        | H : <[_ := _]> _ !! _ = _ |- _ => rewrite lookup_insert_eq in H
        end;
    simplify_eq; eauto 8.
Qed.

Lemma not_elem_of_ocr_log (x : level * message) lg :
  Forall (λ x, ocr_message x = true) lg → ocr_message x = false → x ∉ lg.
Proof.
  intros Hall Hx Hin. rewrite Forall_forall in Hall.
  specialize (Hall x Hin). congruence.
Qed.

(** C4. When a run of [_handle_path] reports both artifacts written,
    [<stem>_ocr.pdf] holds the bytes returned by [ocr_to_bytes] and
    [<stem>.base64] holds their base64 encoding as ASCII text, so that
    decoding the text of the second file gives the bytes of the first. *)
Theorem artifact_round_trip h env path w u :
  published h env path w u →
  let w' := (_handle_path h env path w).2 in
  ∃ pdf_bytes content,
    (ocr_to_bytes env path (ocr_jobs h) (output_type h) w).1 = Ok (pdf_bytes, u)
    ∧ files w' !! pdf_out_path h path = Some pdf_bytes
    ∧ files w' !! out_path h path = Some content
    ∧ string_of_list_byte content = b64encode pdf_bytes
    ∧ b64decode (string_of_list_byte content) = Some pdf_bytes.
Proof.
  unfold published. rewrite _handle_path_unfold. intros [Hpdf Hb64]. cbn zeta.
  destruct (passes_filters h env path w); cycle 1.
  { unfold new_logs in Hpdf. cbn in Hpdf. rewrite drop_all in Hpdf.
    by apply elem_of_nil in Hpdf. }
  destruct (wait_for_file_ready _ _ _ _); cycle 1.
  { cbn in Hpdf. rewrite new_logs_with_logs in Hpdf.
    by apply list_elem_of_singleton in Hpdf. }
  revert Hpdf Hb64. unfold ocr_and_publish, try_except, mbind, M_bind.
  destruct (ocr_to_bytes_cases env path (ocr_jobs h) (output_type h) w)
    as [(e & He & ->) | (orig & [[bytes u0]|e] & lg & Hr & -> & Hlg)]; cbn.
  { unfold log. cbn. fold (with_logs w [(ERROR, MsgFailedToProcess path
                                           (RuntimeError path e))]).
    rewrite new_logs_with_logs. intros Hpdf.
    by apply list_elem_of_singleton in Hpdf. }
  all: assert (Hnot : ∀ p b, ((INFO, MsgWrotePdf p b) ∉ lg)
                             ∧ ((INFO, MsgWroteBase64 p b) ∉ lg))
    by (intros; split; by apply not_elem_of_ocr_log).
  all: cycle 1.
  { unfold log, new_logs. cbn. rewrite <- (assoc_L (++)), drop_app_length.
    rewrite elem_of_app, list_elem_of_singleton.
    intros [Hp | Hp]; [by apply Hnot in Hp | done]. }
  destruct (write_ocr_pdf_cases h path bytes u0 (with_logs w lg))
    as (w2 & -> & _ & Hcase).
  destruct (write_base64_cases h path bytes u0 w2)
    as [(w3 & -> & Hf3 & Hl3) | (e & w3 & -> & Hl3)]; cbn.
  - unfold new_logs. rewrite Hl3.
    destruct Hcase as [[Hf2 Hl2] | (e & Hl2 & _)]; rewrite Hl2; cbn;
      rewrite <- !(assoc_L (++)), drop_app_length;
      rewrite !elem_of_app, !list_elem_of_singleton;
      intros [Hp | [Hp | Hp]] [Hb | [Hb | Hb]];
      try (by apply Hnot in Hp); try (by apply Hnot in Hb); simplify_eq.
    exists bytes, (list_byte_of_string (b64encode bytes)).
    rewrite Hf3, Hf2.
    split; [done|]. split.
    { rewrite lookup_insert_ne by (symmetry; apply pdf_out_path_ne_out_path).
      rewrite lookup_delete_ne by (symmetry; apply pdf_out_path_ne_tmp_path).
      rewrite lookup_insert_ne by (symmetry; apply pdf_out_path_ne_tmp_path).
      by rewrite lookup_insert_eq. }
    split; [by rewrite lookup_insert_eq|].
    rewrite string_of_list_byte_of_string. split; [done|].
    apply b64decode_b64encode.
  - unfold new_logs. rewrite Hl3.
    destruct Hcase as [[Hf2 Hl2] | (e' & Hl2 & _)]; rewrite Hl2; cbn;
      rewrite <- !(assoc_L (++)), drop_app_length;
      rewrite !elem_of_app, !list_elem_of_singleton;
      intros [Hp | [Hp | Hp]] [Hb | [Hb | Hb]];
      try (by apply Hnot in Hp); try (by apply Hnot in Hb); simplify_eq.
Qed.

(** A run with the engine in place: [/in/report.pdf] has become ready,
    the engine returns five bytes, and both artifacts are written. *)
Lemma artifact_round_trip_witness :
  let w' := (_handle_path sample_handler
               (sample_env (Some <$> [3; 3; 3]%Z) true (Some sample_engine))
               ["in"; "report.pdf"] (sample_world true)).2 in
  files w' !! ["in"; "base64"; "report_ocr.pdf"]
  = Some ["O"%byte; "K"%byte; "M"%byte; "a"%byte; "n"%byte]
  ∧ string_of_list_byte <$> files w' !! ["in"; "base64"; "report.base64"]
    = Some "T0tNYW4=".
Proof.
  destruct (artifact_round_trip sample_handler
              (sample_env (Some <$> [3; 3; 3]%Z) true (Some sample_engine))
              ["in"; "report.pdf"] (sample_world true) false)
    as (pdf_bytes & content & Hocr & Hpdf & Hb64 & Htxt & _).
  - split; vm_compute; set_solver.
  - vm_compute in Hocr. injection Hocr as <-.
    cbn zeta. split; [exact Hpdf|].
    change (out_path sample_handler ["in"; "report.pdf"])
      with ["in"; "base64"; "report.base64"] in Hb64.
    rewrite Hb64. cbn. by rewrite Htxt.
Defined.

(** C5. No scratch file to be had. The input is readable, and yet
    [ocr_to_bytes] raises: [NamedTemporaryFile] is called outside the
    [try] block of the engine, so that its exception goes to the caller,
    before the engine is tried. The task logs the failure and writes
    neither artifact, although the original bytes had been read. *)
Theorem scratch_failure_aborts :
  let env := no_scratch_env (Some <$> [3; 3; 3]%Z) true (Some sample_engine) in
  let path := ["in"; "report.pdf"] in
  let w := sample_world true in
  read_bytes path w = (Ok ["M"%byte; "a"%byte; "n"%byte], w)
  ∧ ocr_to_bytes env path None "pdf" w = (Raise FileNotFoundError, w)
  ∧ _handle_path sample_handler env path w
    = (Ok (),
       with_logs w [(ERROR, MsgFailedToProcess path FileNotFoundError)]).
Proof. by vm_compute. Qed.

(** C8. With the output directory distinct from the input directory, a
    path under the output directory leaves [_handle_path] with the world
    untouched: no artifact, no log record, no file-system call. With the
    two directories equal the check is not made: the run is the same
    whatever [resolve], and so [is_within], would answer. *)
Theorem loop_prevention h env path w :
  (output_dir h ≠ input_dir h →
   is_within env path (output_dir h) = true →
   _handle_path h env path w = (Ok (), w))
  ∧ (output_dir h = input_dir h →
     ∀ r, _handle_path h
            (mkEnv r (HAVE_PIKEPDF env) (polls env) (ocrmypdf env) (cpu_count env)
               (scratch_error env))
            path w
          = _handle_path h env path w).
Proof.
  split.
  - intros Hne Hin. rewrite _handle_path_unfold.
    unfold passes_filters. rewrite Hin, bool_decide_false by done.
    cbn. by rewrite andb_false_r.
  - intros Heq r. unfold _handle_path.
    rewrite bool_decide_true by done. reflexivity.
Qed.

(** A PDF under [/in/base64] is ignored by the handler that writes
    there; with [/in] as output directory too, [/in/report.pdf] is
    processed although it lies under the output directory. *)
Lemma loop_prevention_witness :
  _handle_path sample_handler (sample_env (Some <$> [3; 3; 3]%Z) true None)
    ["in"; "base64"; "copy.pdf"] (sample_world true)
  = (Ok (), sample_world true)
  ∧ files (_handle_path (mkHandler ["in"] ["in"] false 5 None "pdf")
             (sample_env (Some <$> [3; 3; 3]%Z) true None)
             ["in"; "report.pdf"] (sample_world true)).2
      !! ["in"; "report.base64"]
    = Some (list_byte_of_string "TWFu").
Proof.
  split.
  - apply (proj1 (loop_prevention sample_handler
                    (sample_env (Some <$> [3; 3; 3]%Z) true None)
                    ["in"; "base64"; "copy.pdf"] (sample_world true))).
    + intros H. vm_compute in H. discriminate H.
    + vm_compute. reflexivity.
  - rewrite <- (proj2 (loop_prevention (mkHandler ["in"] ["in"] false 5 None "pdf")
                         (sample_env (Some <$> [3; 3; 3]%Z) true None)
                         ["in"; "report.pdf"] (sample_world true))
                  eq_refl (λ _, None)).
    vm_compute. reflexivity.
Defined.

(** The calls of the two blocks: the first block starts with the write of
    the temporary PDF; the second only adds calls. *)
Lemma write_ocr_pdf_calls h path bytes u w :
  ∃ rest, calls (write_ocr_pdf h path bytes u w).2
          = (calls w ++ OpWrite (tmp_pdf_out h path) :: rest)%list.
Proof.
  unfold write_ocr_pdf, write_bytes, os_replace. run_M.
  repeat case_match; simplify_eq/=; rewrite <- ?(assoc_L (++)); by eexists.
Qed.

Lemma write_base64_calls h path bytes u w :
  ∃ more, calls (write_base64 h path bytes u w).2 = (calls w ++ more)%list.
Proof.
  unfold write_base64, write_text, mkdir_parents, write_bytes, os_replace. run_M.
  repeat case_match; simplify_eq/=; rewrite <- ?(assoc_L (++)); by eexists.
Qed.

(** Every task that gets as far as publication starts its file-system
    calls with the write of the temporary PDF: no [mkdir] comes first. *)
Lemma publication_starts_with_pdf_write h env path w bytes u :
  passes_filters h env path w = true →
  wait_for_file_ready env path (use_polling h) (retries h) = true →
  (ocr_to_bytes env path (ocr_jobs h) (output_type h) w).1 = Ok (bytes, u) →
  ∃ rest, calls (_handle_path h env path w).2
          = (calls w ++ OpWrite (tmp_pdf_out h path) :: rest)%list.
Proof.
  intros Hf Hready Hocr. rewrite _handle_path_unfold, Hf, Hready.
  unfold try_except, ocr_and_publish, mbind, M_bind.
  destruct (ocr_to_bytes_cases env path (ocr_jobs h) (output_type h) w)
    as [(e & _ & He) | (orig & r & lg & _ & He & _)];
    rewrite He in Hocr |- *; cbn in Hocr; [done|]. subst r.
  destruct (write_ocr_pdf_calls h path bytes u (with_logs w lg)) as [rest Hc1].
  destruct (write_ocr_pdf_cases h path bytes u (with_logs w lg))
    as (w2 & Hw2 & _). rewrite Hw2 in *. cbn in Hc1.
  destruct (write_base64_calls h path bytes u w2) as [more Hc2].
  destruct (write_base64 h path bytes u w2) as [[[]|e] w3]; cbn in *;
    rewrite Hc2, Hc1, <- (assoc_L (++)); by eexists.
Qed.

(** C9, at an input that shows the defect. The output directory is
    missing when the task publishes. The first file-system call is the
    write of the temporary PDF, with no [mkdir] before it; it fails and
    is logged; [mkdir] comes only then, before the base64 write. The
    task ends with [report.base64] in place and no [report_ocr.pdf]. *)
Theorem pdf_write_precedes_mkdir :
  let w' := (_handle_path sample_handler
               (sample_env (Some <$> [3; 3; 3]%Z) true None)
               ["in"; "report.pdf"] (sample_world false)).2 in
  calls w' = [OpWrite ["in"; "base64"; "report_ocr.pdf.tmp"];
              OpMkdir ["in"; "base64"];
              OpWrite ["in"; "base64"; "report.base64.tmp"];
              OpReplace ["in"; "base64"; "report.base64.tmp"]
                ["in"; "base64"; "report.base64"]]
  ∧ logs w' = [(WARNING, MsgOcrNotInstalled);
               (WARNING, MsgPdfWriteFailed FileNotFoundError);
               (INFO, MsgWroteBase64 ["in"; "base64"; "report.base64"] true)]
  ∧ files w' !! ["in"; "base64"; "report_ocr.pdf"] = None
  ∧ files w' !! ["in"; "base64"; "report.base64"]
    = Some (list_byte_of_string "TWFu").
Proof. vm_compute. repeat split. Qed.

(** ** The dispatcher *)

Lemma check_and_add_duplicate path s :
  path ∈ in_flight s →
  check_and_add path s
  = (false, set_world s (with_logs (world s) [duplicate_record path])).
Proof. intros Hin. unfold check_and_add. by rewrite bool_decide_true. Qed.

Lemma check_and_add_fresh path s :
  path ∉ in_flight s →
  check_and_add path s
  = (true, mkSys ({[path]} ∪ in_flight s) (path :: admitted s) (queued s)
             (running s) (set_calls s ++ [SetAdd path]) (world s)).
Proof. intros Hin. unfold check_and_add. by rewrite bool_decide_false. Qed.

Lemma submit_path_duplicate path s :
  path ∈ in_flight s →
  submit_path path s = set_world s (with_logs (world s) [duplicate_record path]).
Proof.
  intros Hin. unfold submit_path. by rewrite check_and_add_duplicate.
Qed.

Lemma submit_path_fresh path s :
  path ∉ in_flight s →
  submit_path path s
  = mkSys ({[path]} ∪ in_flight s) (admitted s) (queued s ++ [path])
      (running s) (set_calls s ++ [SetAdd path]) (world s).
Proof.
  intros Hin. unfold submit_path. rewrite check_and_add_fresh by done.
  unfold executor_submit. cbn. by rewrite bool_decide_true.
Qed.

Lemma submit_path_repeat path s n :
  path ∈ in_flight s →
  Nat.iter n (submit_path path) s
  = set_world s (with_logs (world s) (replicate n (duplicate_record path))).
Proof.
  intros Hin. induction n as [|n IH].
  - cbn. rewrite with_logs_nil. by destruct s.
  - rewrite Nat.iter_succ, IH. rewrite submit_path_duplicate by done.
    unfold set_world, with_logs. cbn. do 2 f_equal.
    rewrite <- (assoc_L (++)). f_equal.
    change [duplicate_record path] with (replicate 1 (duplicate_record path)).
    rewrite <- replicate_add. by rewrite Nat.add_1_r.
Qed.

Lemma remove_first_Permutation p l : p ∈ l → l ≡ₚ p :: remove_first p l.
Proof.
  induction l as [|q l IH]; [by intros ?%elem_of_nil|].
  intros Hin. cbn. case_bool_decide as Hpq; [by subst|].
  apply elem_of_cons in Hin as [-> | Hin]; [done|].
  rewrite (IH Hin) at 1. apply Permutation_swap.
Qed.

(** From a state with the invariant, taking away the unit of [p] and [p]
    from the set keeps it. *)
Lemma dispatch_inv_remove (s s' : Sys) p :
  dispatch_inv s →
  units s ≡ₚ p :: units s' →
  in_flight s' = in_flight s ∖ {[p]} →
  dispatch_inv s'.
Proof.
  intros [Hnd Hiff] Hperm Hset.
  rewrite Hperm in Hnd. apply NoDup_cons in Hnd as [Hp Hnd].
  split; [done|]. intros q. rewrite Hset, elem_of_difference, Hiff, Hperm.
  rewrite elem_of_cons, elem_of_singleton. split.
  - intros [[-> | Hq] Hne]; done.
  - intros Hq. split; [by right|]. by intros ->.
Qed.

Lemma dispatch_inv_perm (s s' : Sys) :
  dispatch_inv s → units s ≡ₚ units s' → in_flight s' = in_flight s →
  dispatch_inv s'.
Proof.
  intros [Hnd Hiff] Hperm Hset. split; [by rewrite <- Hperm|].
  intros q. by rewrite Hset, Hiff, Hperm.
Qed.

Lemma step_dispatch_inv h workers s s' :
  step h workers s s' → dispatch_inv s → dispatch_inv s'.
Proof.
  intros Hstep Hinv.
  destruct Hstep as [d f s | path s | path s Hin | s Hq Hw | env path s Hin].
  - by apply (dispatch_inv_perm s).
  - destruct (decide (path ∈ in_flight s)) as [Hd | Hd].
    + rewrite check_and_add_duplicate by done. cbn.
      by apply (dispatch_inv_perm s).
    + rewrite check_and_add_fresh by done. cbn.
      destruct Hinv as [Hnd Hiff]. split.
      * unfold units. cbn. apply NoDup_cons. split; [|done].
        by rewrite <- Hiff.
      * intros q. unfold units. cbn. rewrite elem_of_union, elem_of_singleton.
        rewrite elem_of_cons. by rewrite Hiff.
  - apply (dispatch_inv_perm s); [done| |done].
    unfold units, executor_submit. cbn.
    rewrite (remove_first_Permutation path (admitted s) Hin) at 1.
    solve_Permutation.
  - apply (dispatch_inv_perm s); [done| |].
    + unfold units, worker_start. destruct (queued s) as [|p q]; [done|]. cbn.
      solve_Permutation.
    + unfold worker_start. by destruct (queued s).
  - apply (dispatch_inv_remove s _ path); [done| |].
    + unfold units, worker_finish. rewrite _task_eq. cbn.
      rewrite (remove_first_Permutation path (running s) Hin) at 1.
      solve_Permutation.
    + unfold worker_finish. rewrite _task_eq. done.
Qed.

Lemma reachable_dispatch_inv h workers s : reachable h workers s → dispatch_inv s.
Proof.
  intros [w Hrtc]. revert s Hrtc. apply rtc_ind_r.
  - split; [constructor|]. intros p. unfold units. cbn.
    split; [by intros ?%elem_of_empty | by intros ?%elem_of_nil].
  - intros s1 s2 _ Hstep IH. by eapply step_dispatch_inv.
Qed.

Lemma filter_eq_absent (p : Path) (l : list Path) :
  p ∉ l → filter (λ q, q = p) l = [].
Proof.
  induction l as [|q l IH]; [done|].
  intros [Hne Hl]%not_elem_of_cons. rewrite filter_cons.
  case_decide; [congruence | auto].
Qed.

Lemma NoDup_filter_eq_length (p : Path) (l : list Path) :
  NoDup l → (length (filter (λ q, q = p) l) ≤ 1)%nat.
Proof.
  induction 1 as [|q l Hq Hnd IH]; [cbn; lia|].
  rewrite filter_cons. case_decide as Hqp; [|done].
  subst q. cbn. rewrite filter_eq_absent by done. cbn. lia.
Qed.

(** [submit_path] is a run of the interleaving semantics: the locked
    block, then the hand-over to the executor. *)
Lemma submit_path_steps h workers path s :
  rtc (step h workers) s (submit_path path s).
Proof.
  unfold submit_path.
  pose proof (step_admit h workers path s) as Hadmit.
  destruct (decide (path ∈ in_flight s)) as [Hd | Hd].
  - rewrite check_and_add_duplicate in * by done. by apply rtc_once.
  - rewrite check_and_add_fresh in * by done. cbn in Hadmit.
    eapply rtc_l; [exact Hadmit|]. apply rtc_once, step_schedule. cbn.
    apply elem_of_cons. by left.
Qed.

(** Every exception is caught inside [_handle_path]. *)
Lemma _handle_path_never_raises h env path w :
  (_handle_path h env path w).1 = Ok ().
Proof.
  rewrite _handle_path_unfold.
  destruct (passes_filters _ _ _ _); [|done].
  destruct (wait_for_file_ready _ _ _ _); [|done].
  unfold try_except. destruct (ocr_and_publish h env path w) as [[[]|e] w']; done.
Qed.

(** C1. A submission of a path that is in the in-flight set changes
    neither the set nor the work units of the executor (nor the disk): it
    only logs one record at DEBUG level, and so do any number of such
    submissions in a row. Hence, in every state that the notifier and
    worker threads can reach, a path has at most one work unit, admitted,
    queued or running, and it has one exactly while it is in the set. *)
Theorem dedup h workers path s :
  (path ∈ in_flight s →
     submit_path path s
     = set_world s (with_logs (world s) [duplicate_record path])
     ∧ ∀ n, Nat.iter n (submit_path path) s
            = set_world s
                (with_logs (world s) (replicate n (duplicate_record path))))
  ∧ (reachable h workers s →
       (length (filter (λ q, q = path) (units s)) ≤ 1)%nat
       ∧ (length (filter (λ q, q = path) (running s)) ≤ 1)%nat
       ∧ (path ∈ in_flight s ↔ path ∈ units s)).
Proof.
  split.
  - intros Hin. split; [by apply submit_path_duplicate|].
    intros n. by apply submit_path_repeat.
  - intros [Hnd Hiff]%reachable_dispatch_inv.
    split; [by apply NoDup_filter_eq_length|].
    split; [|done].
    apply NoDup_filter_eq_length.
    unfold units in Hnd. apply NoDup_app in Hnd as (_ & _ & Hnd).
    by apply NoDup_app in Hnd as (_ & _ & Hnd).
Qed.

(** Three more submissions of a path that has just been submitted leave
    one work unit in the queue. *)
Lemma dedup_witness :
  let path := ["in"; "report.pdf"] in
  let s := submit_path path (init_sys (sample_world true)) in
  queued (Nat.iter 3 (submit_path path) s) = [path]
  ∧ in_flight (Nat.iter 3 (submit_path path) s) = {[path]} ∪ ∅
  ∧ (length (filter (λ q, q = path) (running s)) ≤ 1)%nat.
Proof.
  intros path s.
  destruct (dedup sample_handler 2 path s) as [Hdup Hreach].
  assert (Hin : path ∈ in_flight s)
    by (subst s; rewrite submit_path_fresh by apply not_elem_of_empty;
        cbn; apply elem_of_union_l; by apply elem_of_singleton).
  destruct (Hdup Hin) as [_ Hn]. rewrite Hn.
  destruct Hreach as (_ & Hrun & _).
  { exists (sample_world true). apply submit_path_steps. }
  split; [|split]; [| |exact Hrun].
  - subst s. by rewrite submit_path_fresh by apply not_elem_of_empty.
  - subst s. by rewrite submit_path_fresh by apply not_elem_of_empty.
Defined.

(** C2. Whatever [_handle_path] does (the file filtered out, never
    ready, an error caught and logged, the artifacts published), the
    work unit ends with exactly one [discard] of its path: the set is
    the former one without the path, the work units are untouched, and
    the result is not an exception. The next submission of the path is
    admitted: the path is back in the set and a new work unit is queued.
    The [finally] block does the same around any body, also one that
    raises. *)
Theorem release h env path s :
  let s' := (_task h env path s).2 in
  (_task h env path s).1 = Ok ()
  ∧ in_flight s' = in_flight s ∖ {[path]}
  ∧ set_calls s' = (set_calls s ++ [SetDiscard path])%list
  ∧ (admitted s', queued s', running s') = (admitted s, queued s, running s)
  ∧ (path ∉ in_flight s')
  ∧ (check_and_add path s').1 = true
  ∧ path ∈ in_flight (submit_path path s')
  ∧ queued (submit_path path s') = (queued s ++ [path])%list
  ∧ (∀ body : M unit,
       let s'' := (try_finally (in_world body) (discard path) s).2 in
       in_flight s'' = in_flight s ∖ {[path]}
       ∧ set_calls s'' = (set_calls s ++ [SetDiscard path])%list).
Proof.
  cbn zeta. rewrite _task_eq. cbn.
  assert (Hout : path ∉ in_flight s ∖ {[path]}).
  { apply not_elem_of_difference. right. by apply elem_of_singleton. }
  split; [apply _handle_path_never_raises|].
  do 4 (split; [done|]).
  split; [by rewrite check_and_add_fresh|].
  rewrite submit_path_fresh by done. cbn.
  split; [apply elem_of_union_l; by apply elem_of_singleton|].
  split; [done|].
  intros body. unfold try_finally, in_world.
  by destruct (body (world s)).
Qed.

(** The four outcomes of the specification, each on a sample run, with
    the path released after every one of them. *)
Example release_outcomes :
  let go env path wd :=
    let s := mkSys {[path]} [] [] [path] [SetAdd path] (sample_world wd) in
    let s' := (_task sample_handler env path s).2 in
    (bool_decide (path ∈ in_flight s'), snd <$> logs (world s')) in
  go (sample_env [] true None) ["in"; "notes.txt"] true = (false, [])
  ∧ go (sample_env [] false None) ["in"; "late.pdf"] true
    = (false, [MsgNotReady ["in"; "late.pdf"]])
  ∧ go (sample_env (Some <$> [3; 3; 3]%Z) true None) ["in"; "gone.pdf"] true
    = (false, [MsgFailedToProcess ["in"; "gone.pdf"]
                 (RuntimeError ["in"; "gone.pdf"] FileNotFoundError)])
  ∧ go (sample_env (Some <$> [3; 3; 3]%Z) true (Some sample_engine))
       ["in"; "report.pdf"] true
    = (false, [MsgWrotePdf ["in"; "base64"; "report_ocr.pdf"] false;
               MsgWroteBase64 ["in"; "base64"; "report.base64"] false]).
Proof. vm_compute. repeat split. Qed.

(** The initial scan of [main] makes its own check, without comparing
    the two directories: no path under the output directory is
    submitted, and with the two directories equal that is every path. *)
Lemma initial_scan_skips h env pdfs s :
  (∀ pdf, pdf ∈ pdfs → is_within env pdf (output_dir h) = true) →
  initial_scan h env pdfs s = s.
Proof.
  unfold initial_scan. revert s. induction pdfs as [|pdf pdfs IH]; intros s Hall; [done|].
  cbn. rewrite (Hall pdf) by (apply elem_of_cons; by left).
  apply IH. intros q Hq. apply Hall, elem_of_cons. by right.
Qed.

(* ===================================================================== *)
(** * Further properties of the code *)
(* ===================================================================== *)

(** ** watcher/utils.py *)

(** X1. [is_within] is a preorder on the paths that resolve: a path is
    within itself, and within whatever contains a path that contains
    it; a path that does not resolve is within nothing and contains
    nothing (the exception is swallowed). *)
Theorem is_within_preorder env a b c :
  (is_Some (resolve env a) → is_within env a a = true)
  ∧ (is_within env a b = true → is_within env b c = true →
     is_within env a c = true)
  ∧ (resolve env a = None →
     is_within env a b = false ∧ is_within env b a = false).
Proof.
  unfold is_within. split; [|split].
  - intros [a' ->]. by apply bool_decide_eq_true.
  - destruct (resolve env a) as [a'|]; [|done].
    destruct (resolve env b) as [b'|]; [|done].
    destruct (resolve env c) as [c'|]; [|done].
    rewrite !bool_decide_eq_true. intros Hba Hcb. by etrans.
  - intros ->. split; [done|]. by destruct (resolve env b).
Qed.

(** A file in [/in/base64] is within [/in], through [/in/base64]. *)
Lemma is_within_preorder_witness :
  is_within (sample_env [] true None) ["in"; "base64"; "a.pdf"] ["in"] = true.
Proof.
  apply (proj1 (proj2 (is_within_preorder (sample_env [] true None)
                         ["in"; "base64"; "a.pdf"] ["in"; "base64"] ["in"])));
    vm_compute; reflexivity.
Defined.

(** X2. When [pikepdf] is installed and opens the file at a poll that
    the loop reaches within its budget, the function returns [True] at
    that poll, whatever the size observed: an empty file, or one whose
    size is still changing, is ready as soon as it parses. *)
Theorem probe_opens_ready env path up retries k st :
  HAVE_PIKEPDF env = true →
  (k < budget retries)%nat →
  after_polls env path k = Next st →
  ob_exists (polls env path k) = true →
  ob_opens (polls env path k) = true →
  after_polls env path (S k) = Return true
  ∧ wait_for_file_ready env path up retries = true.
Proof.
  intros Hhave Hk Hreach He Ho.
  assert (H : after_polls env path (S k) = Return true).
  { rewrite after_polls_S, Hreach. unfold poll_iteration.
    by rewrite He, Hhave, Ho. }
  split; [done|]. unfold wait_for_file_ready, poll_all.
  by rewrite (after_polls_Return_le env path (S k) (budget retries) true)
    by (lia || done).
Qed.

(** A file of size 0, 10, 20 at the first three polls, which [pikepdf]
    opens from the third poll on, is ready at the third poll. *)
Lemma probe_opens_ready_witness :
  after_polls (probe_env (Some <$> [0; 10; 20]%Z) false 2) ["in"; "a.pdf"] 3
  = Return true
  ∧ wait_for_file_ready (probe_env (Some <$> [0; 10; 20]%Z) false 2)
      ["in"; "a.pdf"] false 30 = true.
Proof.
  apply (probe_opens_ready (probe_env (Some <$> [0; 10; 20]%Z) false 2)
           ["in"; "a.pdf"] false 30 2 (mkPoll 10 0));
    try reflexivity.
  vm_compute. lia.
Defined.

(** X3. A retry budget of 1, 0 or less makes exactly one poll: the answer
    is [True] when the file is there and [pikepdf] opens it, and otherwise
    what [path.exists()] reports after that poll; the size plays no
    part. *)
Theorem single_poll env path up retries :
  (retries ≤ 1)%Z →
  wait_for_file_ready env path up retries
  = (ob_exists (polls env path 0) && HAVE_PIKEPDF env
     && ob_opens (polls env path 0))
    || ob_exists (polls env path 1).
Proof.
  intros Hr. unfold wait_for_file_ready, poll_all, budget.
  replace (Z.to_nat (Z.max 1 retries)) with 1%nat by lia.
  unfold after_polls. cbn. unfold poll_iteration.
  destruct (ob_exists (polls env path 0)); cbn; [|done].
  destruct (HAVE_PIKEPDF env && ob_opens (polls env path 0)); cbn; [done|].
  destruct (ob_stat (polls env path 0)) as [sz|]; cbn; [|done].
  destruct (Z.eqb_spec sz (-1)) as [->|]; [done|]. by rewrite andb_false_r.
Qed.

(** With [--retries 0] a file of 7 bytes that is still there after the
    poll is reported ready, and one that is gone is not. *)
Lemma single_poll_witness :
  wait_for_file_ready (sample_env [Some 7%Z] true None) ["in"; "a.pdf"] false 0
  = true
  ∧ wait_for_file_ready (sample_env [Some 7%Z] false None) ["in"; "a.pdf"]
      false (-3) = false.
Proof.
  split.
  - rewrite (single_poll (sample_env [Some 7%Z] true None)); [reflexivity | lia].
  - rewrite (single_poll (sample_env [Some 7%Z] false None)); [reflexivity | lia].
Defined.

(** Without a successful probe the state of the loop records what was
    seen: the counter is 0 or 1; a positive last size was seen at some
    earlier poll, and at two of them when the counter is 1. *)
Lemma stability_invariant env path :
  probe_fails env path →
  ∀ n st, after_polls env path n = Next st →
    (stable_count st = 0 ∨ stable_count st = 1)%Z
    ∧ ((0 < last_size st)%Z →
       ∃ j, (j < n)%nat ∧ sees env path j (last_size st))
    ∧ (stable_count st = 1%Z →
       (0 < last_size st)%Z
       ∧ ∃ i j, (i < j < n)%nat ∧ sees env path i (last_size st)
                ∧ sees env path j (last_size st)).
Proof.
  intros Hp. induction n as [|n IH]; intros st.
  - intros [= <-]. cbn. split; [by left|]. split; [lia|discriminate].
  - rewrite after_polls_S.
    destruct (after_polls env path n) as [b|st0]; [done|].
    destruct (IH st0 eq_refl) as (Hc & Hlast & Hone).
    unfold poll_iteration.
    destruct (ob_exists (polls env path n)) eqn:He; cbn.
    2:{ intros [= <-]. split; [done|]. split.
        - intros Hpos. destruct (Hlast Hpos) as (j & Hj & Hs). exists j.
          split; [lia|done].
        - intros H1. destruct (Hone H1) as (Hpos & i & j & Hij & Hi & Hj).
          split; [done|]. exists i, j. split; [lia|done]. }
    assert (HAVE_PIKEPDF env && ob_opens (polls env path n) = false) as ->.
    { destruct Hp as [-> | Hp]; [done|]. by rewrite Hp, andb_false_r. }
    set (size := match ob_stat (polls env path n) with
                 | Some sz => sz | None => (-1)%Z end).
    assert (Hsees : (0 < size)%Z → sees env path n size).
    { intros Hpos. split; [done|]. subst size.
      destruct (ob_stat (polls env path n)); [done|lia]. }
    destruct (Z.ltb_spec 0 size) as [Hpos|Hneg]; cbn.
    + destruct (Z.eqb_spec size (last_size st0)) as [Heq|Hne].
      * destruct (Z.leb_spec 2 (stable_count st0 + 1)); [done|].
        intros [= <-]. cbn.
        assert (stable_count st0 = 0%Z) as Hz by lia. rewrite Hz.
        split; [by right|]. split.
        -- intros _. exists n. split; [lia | by apply Hsees].
        -- intros _. split; [done|].
           destruct Hlast as (j & Hj & Hs); [lia|].
           exists j, n. rewrite Heq. split; [lia|]. split; [done|].
           rewrite <- Heq. by apply Hsees.
      * intros [= <-]. cbn. split; [by left|]. split; [|discriminate].
        intros _. exists n. split; [lia | by apply Hsees].
    + intros [= <-]. cbn. split; [by left|]. split; [lia|discriminate].
Qed.

(** A return of the loop without a successful probe stands on three
    polls that found the file with one positive size. *)
Lemma return_after_three_sees env path n :
  probe_fails env path →
  after_polls env path n = Return true →
  ∃ i j k sz, (i < j < k)%nat ∧ (k < n)%nat ∧ (0 < sz)%Z
              ∧ sees env path i sz ∧ sees env path j sz ∧ sees env path k sz.
Proof.
  intros Hp. induction n as [|n IH]; [done|].
  rewrite after_polls_S.
  destruct (after_polls env path n) as [b|st] eqn:Hn.
  - intros [= ->]. destruct (IH eq_refl) as (i & j & k & sz & ? & ? & ?).
    exists i, j, k, sz. split; [done|]. split; [lia|done].
  - destruct (stability_invariant env path Hp n st Hn) as (Hc & _ & Hone).
    unfold poll_iteration.
    destruct (ob_exists (polls env path n)) eqn:He; cbn; [|done].
    assert (HAVE_PIKEPDF env && ob_opens (polls env path n) = false) as ->.
    { destruct Hp as [-> | Hp']; [done|]. by rewrite Hp', andb_false_r. }
    destruct (ob_stat (polls env path n)) as [size|] eqn:Hs; cbn; [|done].
    destruct (Z.ltb_spec 0 size) as [Hpos|]; cbn; [|done].
    destruct (Z.eqb_spec size (last_size st)) as [Heq|]; [|done].
    destruct (Z.leb_spec 2 (stable_count st + 1)); [|done].
    intros _. destruct Hone as (_ & i & j & Hij & Hi & Hj); [lia|].
    exists i, j, n, size. rewrite Heq.
    split; [lia|]. split; [lia|]. split; [lia|].
    split; [done|]. split; [done|]. split; [done|]. by rewrite <- Heq.
Qed.

(** X4. Without a successful structural probe the loop returns [True]
    only after three polls that found the file with the same positive
    size: no readiness by stability on fewer than three observations. *)
Theorem stability_needs_three_polls env path n :
  probe_fails env path →
  after_polls env path n = Return true →
  ∃ i j k sz, (i < j < k)%nat ∧ (k < n)%nat ∧ (0 < sz)%Z
              ∧ sees env path i sz ∧ sees env path j sz ∧ sees env path k sz.
Proof. apply return_after_three_sees. Qed.

(** The three polls of 500 bytes behind the return at the sixth poll. *)
Lemma stability_needs_three_polls_witness :
  ∃ i j k sz, (i < j < k)%nat ∧ (k < 6)%nat ∧ (0 < sz)%Z
    ∧ sees (sample_env (Some <$> [0; 200; 400; 500; 500; 500]%Z) false None)
        ["in"; "partial.pdf"] k sz.
Proof.
  assert (Hret : after_polls
                   (sample_env (Some <$> [0; 200; 400; 500; 500; 500]%Z) false None)
                   ["in"; "partial.pdf"] 6 = Return true) by reflexivity.
  destruct (stability_needs_three_polls
              (sample_env (Some <$> [0; 200; 400; 500; 500; 500]%Z) false None)
              ["in"; "partial.pdf"] 6 (or_introl eq_refl) Hret)
    as (i & j & k & sz & Hijk & Hk & Hsz & _ & _ & Hs).
  by exists i, j, k, sz.
Defined.

(** X5. Without a successful structural probe a budget of two polls or
    fewer can never find the file stable: the function then answers
    what [path.exists()] reports after the last poll. *)
Theorem short_budget_is_existence env path up retries :
  probe_fails env path →
  (retries ≤ 2)%Z →
  wait_for_file_ready env path up retries
  = ob_exists (polls env path (budget retries)).
Proof.
  intros Hp Hr. unfold wait_for_file_ready, poll_all.
  destruct (after_polls env path (budget retries)) as [b|st] eqn:Hn; [|done].
  pose proof (after_polls_Return env path _ _ Hn) as ->.
  destruct (return_after_three_sees env path _ Hp Hn)
    as (i & j & k & sz & Hijk & Hk & _).
  unfold budget in Hk. lia.
Qed.

(** Two polls of the same size with [--retries 2]: not ready once the
    file is gone, although it was stable while it was polled. *)
Lemma short_budget_is_existence_witness :
  wait_for_file_ready (sample_env (Some <$> [9; 9]%Z) false None)
    ["in"; "a.pdf"] false 2 = false.
Proof.
  rewrite (short_budget_is_existence (sample_env (Some <$> [9; 9]%Z) false None));
    [reflexivity | by left | lia].
Defined.

(** X6. Patience never hurts: when the loop returns [True] within some
    budget, the function returns [True] for every larger budget. *)
Theorem ready_monotone env path up retries retries' :
  (retries ≤ retries')%Z →
  poll_all env path retries = Return true →
  wait_for_file_ready env path up retries' = true.
Proof.
  intros Hle Hret. unfold wait_for_file_ready, poll_all in *.
  rewrite (after_polls_Return_le env path (budget retries) (budget retries') true);
    [done | unfold budget; lia | done].
Qed.

(** Ready within six polls, ready within thirty. *)
Lemma ready_monotone_witness :
  wait_for_file_ready
    (sample_env (Some <$> [0; 200; 400; 500; 500; 500]%Z) false None)
    ["in"; "partial.pdf"] false 30 = true.
Proof.
  apply (ready_monotone
           (sample_env (Some <$> [0; 200; 400; 500; 500; 500]%Z) false None)
           ["in"; "partial.pdf"] false 6 30); [lia | reflexivity].
Defined.

(** ** watcher/ocr.py *)

(** X7. The arguments of the call of the engine: the input path,
    [skip_text=True], [optimize=3], [image_dpi=150], no progress bar; a
    positive [ocr_jobs] is passed as it is; zero, a negative number or
    [None] give way to the CPU count, and to 1 when that is unknown or
    zero, so that there is at least one job; an empty [output_type]
    becomes ["pdf"] and any other is passed as it is. *)
Theorem engine_arguments env pdf_path jobs ot :
  let a := ocr_args env pdf_path jobs ot in
  (arg_input a = pdf_path ∧ arg_skip_text a = true ∧ arg_optimize a = 3%Z
   ∧ arg_image_dpi a = 150%Z ∧ arg_progress_bar a = false)
  ∧ (∀ n, jobs = Some n → (0 < n)%Z → arg_jobs a = n)
  ∧ ((jobs = None ∨ ∃ n, jobs = Some n ∧ (n ≤ 0)%Z) →
     (∀ c, cpu_count env = Some c → c ≠ 0%Z → arg_jobs a = c)
     ∧ (cpu_count env = None ∨ cpu_count env = Some 0%Z → arg_jobs a = 1%Z))
  ∧ ((∀ c, cpu_count env = Some c → (0 ≤ c)%Z) → (1 ≤ arg_jobs a)%Z)
  ∧ (ot = EmptyString → arg_output_type a = "pdf")
  ∧ (ot ≠ EmptyString → arg_output_type a = ot)
  ∧ arg_output_type a ≠ EmptyString.
Proof.
  intros a. subst a. cbn.
  split; [done|]. split; [|split; [|split; [|split; [|split]]]].
  - intros n -> Hn. cbn. destruct (Z.ltb_spec 0 n); [done|lia].
  - intros Hjobs.
    assert (Hj : jobs_arg env jobs = cpu_or_1 env).
    { destruct Hjobs as [-> | (n & -> & Hn)]; [done|]. cbn.
      destruct (Z.ltb_spec 0 n); [lia|done]. }
    rewrite Hj. unfold cpu_or_1. split.
    + intros c -> Hc. by destruct (Z.eqb_spec c 0).
    + by intros [-> | ->].
  - intros Hcpu.
    assert (Hc : (1 ≤ cpu_or_1 env)%Z).
    { unfold cpu_or_1. destruct (cpu_count env) as [c|] eqn:Hcc; [|lia].
      specialize (Hcpu c eq_refl). destruct (Z.eqb_spec c 0); lia. }
    unfold jobs_arg. destruct jobs as [n|]; [|done].
    destruct (Z.ltb_spec 0 n); lia.
  - by intros ->.
  - intros Hne. by destruct (String.eqb_spec ot EmptyString).
  - destruct (String.eqb_spec ot EmptyString) as [->|]; done.
Qed.

(** On four CPUs: [--ocr-jobs 2] gives 2 jobs, [--ocr-jobs 0] gives 4;
    and no output type means ["pdf"]. *)
Lemma engine_arguments_witness :
  arg_jobs (ocr_args (sample_env [] true None) ["in"; "a.pdf"] (Some 2%Z) "") = 2%Z
  ∧ arg_jobs (ocr_args (sample_env [] true None) ["in"; "a.pdf"] (Some 0%Z) "")
    = 4%Z
  ∧ arg_output_type
      (ocr_args (sample_env [] true None) ["in"; "a.pdf"] (Some 0%Z) "") = "pdf".
Proof.
  destruct (engine_arguments (sample_env [] true None) ["in"; "a.pdf"]
              (Some 2%Z) "") as (_ & H2 & _).
  destruct (engine_arguments (sample_env [] true None) ["in"; "a.pdf"]
              (Some 0%Z) "") as (_ & _ & H0 & _ & Hpdf & _).
  split; [apply H2; [reflexivity | lia]|].
  split; [|by apply Hpdf].
  apply H0; [right; exists 0%Z; split; [reflexivity | lia] | reflexivity | lia].
Defined.

(** X8. [ocr_to_bytes] changes nothing of the world but the log. What it
    adds to the log is the records of the engine, when the engine is
    called, and after them at most one record of its own: none when the
    input is unreadable or no scratch file is to be had; none exactly
    when it returns the output of the engine; the one at INFO exactly
    when the engine reports prior OCR; otherwise one warning. When it
    raises after a record of its own, it is the removal of the scratch
    file that has failed. *)
Theorem ocr_to_bytes_logging env path jobs ot w :
  ∃ eng own,
    (ocr_to_bytes env path jobs ot w).2 = with_logs w (engine_records eng ++ own)
    ∧ (eng ≠ [] →
       ∃ original ocr,
         read_bytes path w = (Ok original, w) ∧ ocrmypdf env = Some ocr
         ∧ scratch_error env = None
         ∧ eng = engine_logs (ocr (ocr_args env path jobs ot) (files w)))
    ∧ (length own ≤ 1)%nat
    ∧ (∀ x, x ∈ own →
         x = (WARNING, MsgOcrNotInstalled) ∨ x = (WARNING, MsgOcrEmpty)
         ∨ x = (INFO, MsgPriorOcr) ∨ ∃ e, x = (WARNING, MsgOcrFailed e))
    ∧ (∀ bytes u, (ocr_to_bytes env path jobs ot w).1 = Ok (bytes, u) →
         (u = false ↔ own = []))
    ∧ ((INFO, MsgPriorOcr) ∈ own ↔
       ∃ original ocr,
         read_bytes path w = (Ok original, w) ∧ ocrmypdf env = Some ocr
         ∧ scratch_error env = None
         ∧ engine_raises (ocr (ocr_args env path jobs ot) (files w))
           = Some PriorOcrFoundError)
    ∧ (∀ e, (ocr_to_bytes env path jobs ot w).1 = Raise e →
         (eng = [] ∧ own = []) ∨ (e = FileNotFoundError ∧ length own = 1%nat)).
Proof.
  pose proof (read_bytes_world path w) as Hw.
  destruct (read_bytes path w) as [[original|e] w0] eqn:Hr; cbn in Hw; subst w0.
  2:{ exists [], []. rewrite (ocr_to_bytes_unreadable _ _ _ _ _ e), with_logs_nil
        by (by rewrite Hr).
      cbn. split; [done|]. split; [done|]. split; [lia|].
      split; [by intros ? ?%elem_of_nil|]. split; [done|].
      split; [|by left].
      split; [by intros ?%elem_of_nil | by intros (? & ? & [=] & _)]. }
  destruct (ocrmypdf env) as [ocr|] eqn:Hocr.
  2:{ exists [], [(WARNING, MsgOcrNotInstalled)].
      rewrite (ocr_to_bytes_not_installed _ _ _ _ _ original) by done.
      cbn. split; [done|]. split; [done|]. split; [lia|].
      split; [intros x ->%list_elem_of_singleton; by left|].
      split; [by intros ? ? [= _ <-]|]. split; [|done].
      split; [by intros ?%list_elem_of_singleton | by intros (? & ? & _ & [=] & _)]. }
  destruct (scratch_error env) as [e|] eqn:Hs.
  { exists [], []. rewrite (ocr_to_bytes_no_scratch _ _ _ _ _ original ocr e),
      with_logs_nil by done.
    cbn. split; [done|]. split; [done|]. split; [lia|].
    split; [by intros ? ?%elem_of_nil|]. split; [done|].
    split; [|by left].
    split; [by intros ?%elem_of_nil | by intros (? & ? & _ & _ & [=] & _)]. }
  rewrite (ocr_to_bytes_run _ _ _ _ _ original ocr) by done. cbn zeta.
  set (o := ocr (ocr_args env path jobs ot) (files w)).
  exists (engine_logs o), (fallback_record o). cbn [fst snd].
  split; [done|]. split; [by intros _; exists original, ocr|].
  unfold fallback_record, engine_result.
  destruct (engine_raises o) as [e|] eqn:He, (engine_scratch o) as [[|b data]|]
    eqn:Hsc; try destruct e; cbn;
    (split; [lia|]);
    (split; [first [ by intros ? ?%elem_of_nil
                   | intros x ->%list_elem_of_singleton; eauto 6 ]|]);
    (split; [first [ by intros ? ? [= _ <-] | done ]|]);
    (split; [| first [ by intros ? [= <-]; right | done ]]);
    (split;
     [ first [ by intros ?%elem_of_nil
             | by intros ?%list_elem_of_singleton
             | by intros _; exists original, ocr ]
     | first [ by intros (? & ocr' & _ & [= <-] & _ & Hx); fold o in Hx;
                  rewrite He in Hx
             | by intros; apply list_elem_of_singleton ] ]).
Qed.

(** X9. What [ocr_to_bytes] returns for an input that is not empty is
    not empty: the output of the engine is used only when it is not
    empty, and the fallback is the original bytes. *)
Theorem nonempty_input_nonempty_output env path jobs ot w original bytes u :
  read_bytes path w = (Ok original, w) →
  original ≠ [] →
  (ocr_to_bytes env path jobs ot w).1 = Ok (bytes, u) →
  bytes ≠ [] ∧ (u = true → bytes = original).
Proof.
  intros Hr Hne.
  destruct (ocrmypdf env) as [ocr|] eqn:Hocr.
  2:{ rewrite (ocr_to_bytes_not_installed _ _ _ _ _ original) by done.
      by intros [= <- <-]. }
  destruct (scratch_error env) as [e|] eqn:Hs.
  { by rewrite (ocr_to_bytes_no_scratch _ _ _ _ _ original ocr e). }
  rewrite (ocr_to_bytes_run _ _ _ _ _ original ocr) by done. cbn.
  unfold engine_result.
  destruct (engine_raises _), (engine_scratch _) as [[|b data]|]; cbn;
    try done; by intros [= <- <-].
Qed.

(** The three bytes of [/in/report.pdf] through an engine that fails. *)
Lemma nonempty_input_nonempty_output_witness :
  (ocr_to_bytes
     (sample_env [] true (Some (λ _ _, EngineRaised (OcrError 1))))
     ["in"; "report.pdf"] None "pdf" (sample_world true)).1
  = Ok (["M"%byte; "a"%byte; "n"%byte], true)
  ∧ ["M"%byte; "a"%byte; "n"%byte] ≠ [].
Proof.
  assert (Hret : (ocr_to_bytes
                    (sample_env [] true (Some (λ _ _, EngineRaised (OcrError 1))))
                    ["in"; "report.pdf"] None "pdf" (sample_world true)).1
                 = Ok (["M"%byte; "a"%byte; "n"%byte], true))
    by (vm_compute; reflexivity).
  split; [exact Hret|].
  refine (proj1 (nonempty_input_nonempty_output _ ["in"; "report.pdf"] None
                   "pdf" (sample_world true) ["M"%byte; "a"%byte; "n"%byte]
                   _ true _ _ Hret)); [vm_compute; reflexivity | done].
Defined.

(** ** watcher/handlers.py *)

Lemma str_length_app (a b : string) :
  String.length (a ++ b) = (String.length a + String.length b)%nat.
Proof.
  induction a as [|c a IH]; [done|].
  change (S (String.length (a ++ b)) = S (String.length a + String.length b)).
  by rewrite IH.
Qed.

Lemma str_drop_app (a b : string) : str_drop (String.length a) (a ++ b) = b.
Proof. induction a as [|c a IH]; [by destruct b | exact IH]. Qed.

Lemma str_endswith_app (a b : string) : str_endswith (a ++ b) b = true.
Proof.
  unfold str_endswith. rewrite str_length_app.
  replace (String.length a + String.length b - String.length b)%nat
    with (String.length a) by lia.
  rewrite str_drop_app, String.eqb_refl.
  apply andb_true_iff. split; [|done]. apply Nat.leb_le. lia.
Qed.

Lemma rfind_dot_app (a b : string) :
  rfind_dot (a ++ b) =
  match rfind_dot b with
  | Some j => Some (String.length a + j)%nat
  | None => rfind_dot a
  end.
Proof.
  induction a as [|c a IH].
  { change (EmptyString ++ b) with b. by destruct (rfind_dot b). }
  change (rfind_dot (String c (a ++ b))
          = match rfind_dot b with
            | Some j => Some (S (String.length a + j))
            | None => rfind_dot (String c a)
            end).
  cbn [rfind_dot]. rewrite IH. by destruct (rfind_dot b).
Qed.

(** The suffix of a name that ends with a dotted extension is that
    extension, or nothing when the name is the extension alone. *)
Lemma path_suffix_ext (d : Path) (s ext : string) :
  rfind_dot ext = Some 0%nat →
  path_suffix (joinpath d (s ++ ext)) = ext
  ∨ path_suffix (joinpath d (s ++ ext)) = EmptyString.
Proof.
  intros Hext. unfold path_suffix. rewrite path_name_joinpath.
  unfold suffix_at. rewrite rfind_dot_app, Hext, Nat.add_0_r.
  destruct (_ && _); [left|by right]. apply str_drop_app.
Qed.

(** What the handler writes does not pass its own filters. *)
Lemma written_paths_filtered h env path w p :
  p ∈ [tmp_pdf_out h path; pdf_out_path h path; tmp_path h path; out_path h path] →
  passes_filters h env p w = false.
Proof.
  assert (Hext : ∀ d s ext,
            rfind_dot ext = Some 0%nat →
            String.eqb (str_lower ext) ".pdf" = false →
            passes_filters h env (joinpath d (s ++ ext)) w = false).
  { intros d s ext Hdot Hne. unfold passes_filters.
    destruct (path_suffix_ext d s ext Hdot) as [-> | ->]; [rewrite Hne|];
      cbn; by rewrite orb_true_r. }
  rewrite !elem_of_cons, elem_of_nil.
  intros [-> | [-> | [-> | [-> | []]]]].
  - rewrite tmp_pdf_out_eq. by apply Hext.
  - unfold pdf_out_path, passes_filters.
    rewrite path_name_joinpath, str_endswith_app. cbn.
    by rewrite andb_false_r.
  - rewrite tmp_path_eq. by apply Hext.
  - unfold out_path. by apply Hext.
Qed.

(** X10. The handler never takes its own products for input: on each of
    the four paths it writes for a file (the two artifacts and their
    temporary files) [_handle_path] returns with the world untouched,
    also when the output directory is the input directory and the test
    on the output directory is not made. *)
Theorem own_outputs_ignored h env path w p :
  p ∈ [tmp_pdf_out h path; pdf_out_path h path; tmp_path h path; out_path h path] →
  _handle_path h env p w = (Ok (), w).
Proof.
  intros Hp. rewrite _handle_path_unfold.
  by rewrite (written_paths_filtered h env path w p Hp).
Qed.

(** With [/in] as input and output directory, [/in/report_ocr.pdf]
    written for [/in/report.pdf] is ignored when its event comes. *)
Lemma own_outputs_ignored_witness :
  _handle_path (mkHandler ["in"] ["in"] false 5 None "pdf")
    (sample_env (Some <$> [3; 3; 3]%Z) true None)
    ["in"; "report_ocr.pdf"] (sample_world true)
  = (Ok (), sample_world true).
Proof.
  apply (own_outputs_ignored (mkHandler ["in"] ["in"] false 5 None "pdf")
           (sample_env (Some <$> [3; 3; 3]%Z) true None) ["in"; "report.pdf"]).
  vm_compute. set_solver.
Defined.

(** Membership in a list that computes. *)
Ltac decide_path_elem :=
  lazymatch goal with
  | |- ?p ∉ ?l =>
      let l' := eval vm_compute in l in
      change (p ∉ l'); rewrite !not_elem_of_cons;
      repeat split; first [discriminate | apply not_elem_of_nil]
  | |- ?p ∈ ?l =>
      let l' := eval vm_compute in l in
      change (p ∈ l'); rewrite !elem_of_cons; auto 6
  end.

(** The primitives of the disk, when they succeed. *)
Lemma write_bytes_ok p data w :
  dir_exists w p = false → dir_exists w (path_parent p) = true →
  write_bytes p data w
  = (Ok (), mkWorld (dirs w) (<[p := data]> (files w)) (logs w)
              (calls w ++ [OpWrite p])).
Proof.
  intros Hp Hd. unfold write_bytes. run_M.
  change (dir_exists (mkWorld (dirs w) (files w) (logs w) (calls w ++ [OpWrite p])))
    with (dir_exists w). by rewrite Hp, Hd.
Qed.

Lemma os_replace_ok src dst data w :
  files w !! src = Some data →
  dir_exists w dst = false → dir_exists w (path_parent dst) = true →
  os_replace src dst w
  = (Ok (), mkWorld (dirs w) (<[dst := data]> (delete src (files w))) (logs w)
              (calls w ++ [OpReplace src dst])).
Proof.
  intros Hs Hp Hd. unfold os_replace. run_M. rewrite Hs.
  change (dir_exists (mkWorld (dirs w) (files w) (logs w)
                        (calls w ++ [OpReplace src dst])))
    with (dir_exists w). by rewrite Hp, Hd.
Qed.

Lemma mkdir_parents_ok d w :
  (∀ a, a ∈ ancestors d → files w !! a = None) →
  mkdir_parents d w
  = (Ok (), mkWorld (list_to_set (ancestors d) ∪ dirs w) (files w) (logs w)
              (calls w ++ [OpMkdir d])).
Proof.
  intros Hfree. unfold mkdir_parents. run_M.
  destruct (existsb _ _) eqn:Hex; [|done].
  apply existsb_exists in Hex as (a & Ha & Hsome).
  apply list_elem_of_In in Ha. apply bool_decide_eq_true in Hsome.
  rewrite (Hfree a Ha) in Hsome. by destruct Hsome.
Qed.

Lemma ancestors_length (a d : Path) :
  a ∈ ancestors d → (1 ≤ length a ≤ length d)%nat.
Proof.
  unfold ancestors. intros (k & -> & Hk)%list_elem_of_fmap.
  apply elem_of_seq in Hk. rewrite length_take. lia.
Qed.

Lemma self_in_ancestors (d : Path) : d ≠ [] → d ∈ ancestors d.
Proof.
  intros Hne. unfold ancestors. apply list_elem_of_fmap.
  exists (length d). split; [by rewrite firstn_all|].
  apply elem_of_seq. destruct d; [done|]. cbn. lia.
Qed.

Lemma joinpath_not_ancestor (d : Path) (nm : string) : joinpath d nm ∉ ancestors d.
Proof.
  intros H%ancestors_length. unfold joinpath in H. rewrite length_app in H.
  cbn in H. lia.
Qed.

(** After [mkdir] the directory is there. *)
Lemma dir_exists_after_mkdir (d : Path) ds f l c :
  dir_exists (mkWorld (list_to_set (ancestors d) ∪ ds) f l c) d = true.
Proof.
  unfold dir_exists. cbn. destruct d as [|x d]; [done|].
  apply orb_true_iff. right. apply bool_decide_eq_true.
  apply elem_of_union_l, elem_of_list_to_set. by apply self_in_ancestors.
Qed.

(** A file name in a directory is not a directory after [mkdir] of that
    directory unless it was one before. *)
Lemma dir_exists_child_after_mkdir (d : Path) (nm : string) ds f l c :
  joinpath d nm ∉ ds →
  dir_exists (mkWorld (list_to_set (ancestors d) ∪ ds) f l c) (joinpath d nm)
  = false.
Proof.
  intros Hnot. unfold dir_exists. cbn. apply orb_false_iff. split.
  - apply bool_decide_eq_false. unfold joinpath. by destruct d.
  - apply bool_decide_eq_false. rewrite elem_of_union, elem_of_list_to_set.
    intros [H | H]; [by apply joinpath_not_ancestor in H | done].
Qed.

(** The base64 block succeeds when no regular file is in the way of
    the output directory and neither of its two names is a directory. *)
Lemma write_base64_succeeds h path bytes u w :
  (∀ a, a ∈ ancestors (output_dir h) → files w !! a = None) →
  out_path h path ∉ dirs w → tmp_path h path ∉ dirs w →
  write_base64 h path bytes u w
  = (Ok (),
     mkWorld (list_to_set (ancestors (output_dir h)) ∪ dirs w)
       (<[out_path h path := list_byte_of_string (b64encode bytes)]>
          (delete (tmp_path h path)
             (<[tmp_path h path := list_byte_of_string (b64encode bytes)]>
                (files w))))
       (logs w ++ [(INFO, MsgWroteBase64 (out_path h path) u)])
       (calls w ++ [OpMkdir (output_dir h); OpWrite (tmp_path h path);
                    OpReplace (tmp_path h path) (out_path h path)])).
Proof.
  intros Hfree Hout Htmp.
  unfold write_base64, write_text, mbind, M_bind.
  rewrite (mkdir_parents_ok _ _ Hfree).
  rewrite write_bytes_ok; cycle 1.
  { rewrite tmp_path_eq in *. by apply dir_exists_child_after_mkdir. }
  { rewrite tmp_path_eq, path_parent_joinpath. apply dir_exists_after_mkdir. }
  rewrite (os_replace_ok _ _ (list_byte_of_string (b64encode bytes))); cycle 1.
  { cbn. apply lookup_insert_eq. }
  { by apply dir_exists_child_after_mkdir. }
  { unfold out_path. rewrite path_parent_joinpath. apply dir_exists_after_mkdir. }
  unfold log. cbn. by rewrite <- !(assoc_L (++)).
Qed.

(** The PDF block succeeds when the output directory is there and neither
    of its two names is a directory. *)
Lemma write_ocr_pdf_succeeds h path bytes u w :
  dir_exists w (output_dir h) = true →
  dir_exists w (pdf_out_path h path) = false →
  dir_exists w (tmp_pdf_out h path) = false →
  write_ocr_pdf h path bytes u w
  = (Ok (),
     mkWorld (dirs w)
       (<[pdf_out_path h path := bytes]>
          (delete (tmp_pdf_out h path)
             (<[tmp_pdf_out h path := bytes]> (files w))))
       (logs w ++ [(INFO, MsgWrotePdf (pdf_out_path h path) u)])
       (calls w ++ [OpWrite (tmp_pdf_out h path);
                    OpReplace (tmp_pdf_out h path) (pdf_out_path h path)])).
Proof.
  intros Hdir Hout Htmp.
  unfold write_ocr_pdf, try_except, mbind, M_bind.
  rewrite write_bytes_ok; cycle 1.
  { done. }
  { by rewrite tmp_pdf_out_eq, path_parent_joinpath. }
  rewrite (os_replace_ok _ _ bytes); cycle 1.
  { cbn. apply lookup_insert_eq. }
  { done. }
  { unfold pdf_out_path. by rewrite path_parent_joinpath. }
  unfold log. cbn. by rewrite <- !(assoc_L (++)).
Qed.

Lemma dir_exists_joinpath w d nm :
  dir_exists w (joinpath d nm) = bool_decide (joinpath d nm ∈ dirs w).
Proof. unfold dir_exists, joinpath. by destruct d. Qed.

Lemma tmp_pdf_out_ne_pdf_out_path h path : tmp_pdf_out h path ≠ pdf_out_path h path.
Proof.
  rewrite tmp_pdf_out_eq. unfold pdf_out_path. intros H.
  apply joinpath_inj in H. rewrite str_app_assoc in H.
  apply str_app_inv_head in H. discriminate.
Qed.

Lemma tmp_pdf_out_ne_out_path h path : tmp_pdf_out h path ≠ out_path h path.
Proof.
  rewrite tmp_pdf_out_eq. unfold out_path. intros H.
  apply joinpath_inj in H. rewrite str_app_assoc in H.
  apply str_app_inv_head in H. discriminate.
Qed.

Lemma tmp_pdf_out_ne_tmp_path h path : tmp_pdf_out h path ≠ tmp_path h path.
Proof.
  rewrite tmp_pdf_out_eq, tmp_path_eq. intros H.
  apply joinpath_inj in H. rewrite !str_app_assoc in H.
  apply str_app_inv_head in H. discriminate.
Qed.

(** The files written for a path lie in the output directory, not among
    the directories that lead to it. *)
Lemma written_paths_not_ancestors h path p :
  p ∈ [tmp_pdf_out h path; pdf_out_path h path; tmp_path h path; out_path h path] →
  p ∉ ancestors (output_dir h).
Proof.
  rewrite !elem_of_cons, elem_of_nil.
  intros [-> | [-> | [-> | [-> | []]]]];
    rewrite ?tmp_pdf_out_eq, ?tmp_path_eq; apply joinpath_not_ancestor.
Qed.

(** The world after the PDF block, whatever its outcome: the same
    directories, and the same files but for the two names of the block. *)
Lemma write_ocr_pdf_frame h path bytes u w :
  ∃ w', write_ocr_pdf h path bytes u w = (Ok (), w')
    ∧ dirs w' = dirs w
    ∧ ∀ q, q ≠ tmp_pdf_out h path → q ≠ pdf_out_path h path →
           files w' !! q = files w !! q.
Proof.
  destruct (write_ocr_pdf_cases h path bytes u w)
    as (w' & Heq & Hd & [[Hf _] | (e & _ & [Hf | Hf])]);
    exists w'; (split; [done|]); (split; [done|]); intros q H1 H2; rewrite Hf.
  - rewrite lookup_insert_ne, lookup_delete_ne, lookup_insert_ne; done.
  - done.
  - by rewrite lookup_insert_ne.
Qed.

(** The world after the base64 block, whatever its outcome: directories
    are added on the way to the output directory only, and the files are
    the same but for the two names of the block. *)
Lemma write_base64_frame h path bytes u w :
  let w' := (write_base64 h path bytes u w).2 in
  (dirs w' = dirs w ∨ dirs w' = list_to_set (ancestors (output_dir h)) ∪ dirs w)
  ∧ ∀ q, q ≠ tmp_path h path → q ≠ out_path h path →
         files w' !! q = files w !! q.
Proof.
  unfold write_base64, write_text, mkdir_parents, write_bytes, os_replace. run_M.
  repeat case_match; simplify_eq/=; (split; [auto|]); intros q H1 H2;
    rewrite ?lookup_insert_ne, ?lookup_delete_ne, ?lookup_insert_ne by done;
    done.
Qed.

(** A task whose call of [ocr_to_bytes] raises: the exception is logged
    and that is all. *)
Lemma _handle_path_ocr_raises h env path w e w1 :
  passes_filters h env path w = true →
  wait_for_file_ready env path (use_polling h) (retries h) = true →
  ocr_to_bytes env path (ocr_jobs h) (output_type h) w = (Raise e, w1) →
  _handle_path h env path w
  = (Ok (), with_logs w1 [(ERROR, MsgFailedToProcess path e)]).
Proof.
  intros Hf Hready Hocr. rewrite _handle_path_unfold, Hf, Hready.
  unfold try_except, ocr_and_publish, mbind, M_bind. by rewrite Hocr.
Qed.

(** A task that gets as far as publication, by its blocks. *)
Lemma _handle_path_publication h env path w bytes u :
  passes_filters h env path w = true →
  wait_for_file_ready env path (use_polling h) (retries h) = true →
  (ocr_to_bytes env path (ocr_jobs h) (output_type h) w).1 = Ok (bytes, u) →
  ∃ lg w2,
    ocr_to_bytes env path (ocr_jobs h) (output_type h) w
    = (Ok (bytes, u), with_logs w lg)
    ∧ write_ocr_pdf h path bytes u (with_logs w lg) = (Ok (), w2)
    ∧ _handle_path h env path w
      = match write_base64 h path bytes u w2 with
        | (Ok a, w3) => (Ok a, w3)
        | (Raise e, w3) =>
            (Ok (), with_logs w3 [(ERROR, MsgFailedToProcess path e)])
        end.
Proof.
  intros Hf Hready Hret. rewrite _handle_path_unfold, Hf, Hready.
  unfold try_except, ocr_and_publish, mbind, M_bind.
  destruct (ocr_to_bytes_cases env path (ocr_jobs h) (output_type h) w)
    as [(e & _ & Hocr) | (orig & r & lg & _ & Hocr & _)];
    rewrite Hocr in Hret |- *; cbn in Hret; [done|]. subst r.
  destruct (write_ocr_pdf_cases h path bytes u (with_logs w lg))
    as (w2 & Hw2 & _).
  exists lg, w2. rewrite Hw2. do 2 (split; [done|]).
  by destruct (write_base64 h path bytes u w2) as [[[]|e] w3].
Qed.

Lemma _handle_path_frame h env path w :
  let w' := (_handle_path h env path w).2 in
  (dirs w' = dirs w ∨ dirs w' = list_to_set (ancestors (output_dir h)) ∪ dirs w)
  ∧ ∀ q, q ∉ [tmp_pdf_out h path; pdf_out_path h path;
              tmp_path h path; out_path h path] →
         files w' !! q = files w !! q.
Proof.
  cbn zeta. rewrite _handle_path_unfold.
  destruct (passes_filters h env path w); [|by split; [left|]].
  destruct (wait_for_file_ready _ _ _ _); [|by split; [left|]].
  unfold try_except, ocr_and_publish, mbind, M_bind.
  destruct (ocr_to_bytes_cases env path (ocr_jobs h) (output_type h) w)
    as [(e & _ & ->) | (orig & [[bytes u]|e] & lg & _ & -> & _)];
    [by split; [left|] | | by split; [left|]].
  destruct (write_ocr_pdf_frame h path bytes u (with_logs w lg))
    as (w2 & -> & Hd2 & Hf2).
  destruct (write_base64_frame h path bytes u w2) as [Hd3 Hf3].
  assert (Hgoal :
    (dirs (write_base64 h path bytes u w2).2 = dirs w
     ∨ dirs (write_base64 h path bytes u w2).2
       = list_to_set (ancestors (output_dir h)) ∪ dirs w)
    ∧ ∀ q, q ∉ [tmp_pdf_out h path; pdf_out_path h path;
                tmp_path h path; out_path h path] →
           files (write_base64 h path bytes u w2).2 !! q = files w !! q).
  { cbn in Hd2, Hd3. rewrite Hd2 in Hd3. split; [exact Hd3|].
    intros q Hq. rewrite !not_elem_of_cons in Hq.
    destruct Hq as (H1 & H2 & H3 & H4 & _).
    cbn in Hf3. by rewrite Hf3, Hf2. }
  by destruct (write_base64 h path bytes u w2) as [[[]|e] w3].
Qed.

(** X11. [_handle_path] changes no file but the four it writes for its
    path in the output directory; in particular it never modifies or
    removes its input. It removes no directory and creates none but the
    output directory and those that lead to it. *)
Theorem handler_frame h env path w :
  let w' := (_handle_path h env path w).2 in
  (∀ q, q ∉ [tmp_pdf_out h path; pdf_out_path h path;
             tmp_path h path; out_path h path] →
        files w' !! q = files w !! q)
  ∧ files w' !! path = files w !! path
  ∧ dirs w ⊆ dirs w'
  ∧ dirs w' ⊆ list_to_set (ancestors (output_dir h)) ∪ dirs w.
Proof.
  destruct (_handle_path_frame h env path w) as [Hd Hf]. cbn zeta in *.
  split; [exact Hf|]. split.
  - destruct (decide (path ∈ [tmp_pdf_out h path; pdf_out_path h path;
                             tmp_path h path; out_path h path])) as [Hin|Hout].
    + rewrite _handle_path_unfold.
      by rewrite (written_paths_filtered h env path w path Hin).
    + by apply Hf.
  - destruct Hd as [-> | ->]; set_solver.
Qed.

(** The run that publishes [/in/report.pdf] leaves it as it was, and
    leaves alone a file that was already in the output directory. *)
Lemma handler_frame_witness :
  let w := mkWorld {[ ["in"]; ["in"; "base64"] ]}
             {[ ["in"; "report.pdf"] := ["M"%byte; "a"%byte; "n"%byte];
                ["in"; "base64"; "old.base64"] := ["Q"%byte] ]} [] [] in
  let w' := (_handle_path sample_handler
               (sample_env (Some <$> [3; 3; 3]%Z) true (Some sample_engine))
               ["in"; "report.pdf"] w).2 in
  files w' !! ["in"; "base64"; "old.base64"] = Some ["Q"%byte]
  ∧ files w' !! ["in"; "report.pdf"] = Some ["M"%byte; "a"%byte; "n"%byte].
Proof.
  intros w w'.
  destruct (handler_frame sample_handler
              (sample_env (Some <$> [3; 3; 3]%Z) true (Some sample_engine))
              ["in"; "report.pdf"] w) as (Hq & Hin & _).
  split.
  - subst w'. rewrite Hq; [reflexivity|]. decide_path_elem.
  - subst w'. rewrite Hin. reflexivity.
Defined.

(** X12. The base64 artifact does not depend on the PDF artifact: in a
    task for which [ocr_to_bytes] has returned bytes, when no regular
    file is in the way of the output directory and the two names of the
    base64 block are not directories, the text of these bytes is written
    and reported, the output directory exists afterwards and the
    temporary file is gone, whether the write of the PDF succeeded or
    failed. *)
Theorem base64_despite_pdf_failure h env path w bytes u :
  passes_filters h env path w = true →
  wait_for_file_ready env path (use_polling h) (retries h) = true →
  (ocr_to_bytes env path (ocr_jobs h) (output_type h) w).1 = Ok (bytes, u) →
  (∀ a, a ∈ ancestors (output_dir h) → files w !! a = None) →
  out_path h path ∉ dirs w →
  tmp_path h path ∉ dirs w →
  let w' := (_handle_path h env path w).2 in
  files w' !! out_path h path = Some (list_byte_of_string (b64encode bytes))
  ∧ files w' !! tmp_path h path = None
  ∧ last (logs w') = Some (INFO, MsgWroteBase64 (out_path h path) u)
  ∧ dir_exists w' (output_dir h) = true.
Proof.
  intros Hf Hready Hret Hfree Hout Htmp. cbn zeta.
  destruct (_handle_path_publication h env path w bytes u Hf Hready Hret)
    as (lg & w2 & Hocr & Hw2 & ->).
  destruct (write_ocr_pdf_frame h path bytes u (with_logs w lg))
    as (w2' & Hw2' & Hd2 & Hf2).
  rewrite Hw2 in Hw2'. injection Hw2' as <-. cbn in Hd2.
  rewrite write_base64_succeeds; cycle 1.
  { intros a Ha. rewrite Hf2; [by apply Hfree| |].
    - intros ->. eapply written_paths_not_ancestors; [|exact Ha].
      rewrite !elem_of_cons. auto.
    - intros ->. eapply written_paths_not_ancestors; [|exact Ha].
      rewrite !elem_of_cons. auto. }
  { by rewrite Hd2. }
  { by rewrite Hd2. }
  cbn.
  split; [apply lookup_insert_eq|]. split.
  { rewrite lookup_insert_ne by apply out_path_ne_tmp_path.
    apply lookup_delete_eq. }
  split; [apply last_snoc | apply dir_exists_after_mkdir].
Qed.

(** The run of [/in/report.pdf] with the output directory missing: the
    PDF write fails, the base64 artifact is written all the same. *)
Lemma base64_despite_pdf_failure_witness :
  let w' := (_handle_path sample_handler
               (sample_env (Some <$> [3; 3; 3]%Z) true None)
               ["in"; "report.pdf"] (sample_world false)).2 in
  files w' !! ["in"; "base64"; "report.base64"]
  = Some (list_byte_of_string "TWFu")
  ∧ files w' !! ["in"; "base64"; "report_ocr.pdf"] = None.
Proof.
  intros w'.
  destruct (base64_despite_pdf_failure sample_handler
              (sample_env (Some <$> [3; 3; 3]%Z) true None)
              ["in"; "report.pdf"] (sample_world false)
              ["M"%byte; "a"%byte; "n"%byte] true)
    as (Hout & _); try (vm_compute; reflexivity).
  - intros a Ha. change (ancestors (output_dir sample_handler))
      with [["in"]; ["in"; "base64"]] in Ha.
    rewrite !elem_of_cons, elem_of_nil in Ha.
    destruct Ha as [-> | [-> | []]]; reflexivity.
  - vm_compute. discriminate.
  - vm_compute. discriminate.
  - split; [exact Hout | reflexivity].
Defined.

(** The files after a run that reported both artifacts. *)
Lemma published_files h env path w u :
  published h env path w u →
  ∃ pdf_bytes,
    (ocr_to_bytes env path (ocr_jobs h) (output_type h) w).1 = Ok (pdf_bytes, u)
    ∧ files (_handle_path h env path w).2
      = artifacts_written h path pdf_bytes (files w).
Proof.
  unfold published. rewrite _handle_path_unfold. intros [Hpdf Hb64]. cbn zeta.
  destruct (passes_filters h env path w); cycle 1.
  { unfold new_logs in Hpdf. cbn in Hpdf. rewrite drop_all in Hpdf.
    by apply elem_of_nil in Hpdf. }
  destruct (wait_for_file_ready _ _ _ _); cycle 1.
  { cbn in Hpdf. rewrite new_logs_with_logs in Hpdf.
    by apply list_elem_of_singleton in Hpdf. }
  revert Hpdf Hb64. unfold ocr_and_publish, try_except, mbind, M_bind.
  destruct (ocr_to_bytes_cases env path (ocr_jobs h) (output_type h) w)
    as [(e & He & ->) | (orig & [[bytes u0]|e] & lg & Hr & -> & Hlg)]; cbn.
  { unfold log. cbn. fold (with_logs w [(ERROR, MsgFailedToProcess path
                                           (RuntimeError path e))]).
    rewrite new_logs_with_logs. intros Hpdf.
    by apply list_elem_of_singleton in Hpdf. }
  all: assert (Hnot : ∀ p b, ((INFO, MsgWrotePdf p b) ∉ lg)
                             ∧ ((INFO, MsgWroteBase64 p b) ∉ lg))
    by (intros; split; by apply not_elem_of_ocr_log).
  all: cycle 1.
  { unfold log, new_logs. cbn. rewrite <- (assoc_L (++)), drop_app_length.
    rewrite elem_of_app, list_elem_of_singleton.
    intros [Hp | Hp]; [by apply Hnot in Hp | done]. }
  destruct (write_ocr_pdf_cases h path bytes u0 (with_logs w lg))
    as (w2 & -> & _ & Hcase).
  destruct (write_base64_cases h path bytes u0 w2)
    as [(w3 & -> & Hf3 & Hl3) | (e & w3 & -> & Hl3)]; cbn;
    unfold new_logs; rewrite Hl3;
    destruct Hcase as [[Hf2 Hl2] | (e' & Hl2 & _)]; rewrite Hl2; cbn;
    rewrite <- !(assoc_L (++)), drop_app_length;
    rewrite !elem_of_app, !list_elem_of_singleton;
    intros [Hp | [Hp | Hp]] [Hb | [Hb | Hb]];
    try (by apply Hnot in Hp); try (by apply Hnot in Hb); simplify_eq.
  exists bytes. split; [done|]. by rewrite Hf3, Hf2.
Qed.

(** X13. A run that reports both artifacts leaves no temporary file: the
    files afterwards are those of before with the two artifacts put in
    place, and neither [<stem>_ocr.pdf.tmp] nor [<stem>.base64.tmp]
    exists, even if one was lying there before. *)
Theorem no_temporary_file_left h env path w u :
  published h env path w u →
  let w' := (_handle_path h env path w).2 in
  files w' !! tmp_pdf_out h path = None
  ∧ files w' !! tmp_path h path = None
  ∧ ∀ q, q ∉ [tmp_pdf_out h path; pdf_out_path h path;
              tmp_path h path; out_path h path] →
         files w' !! q = files w !! q.
Proof.
  intros Hpub. cbn zeta.
  destruct (published_files h env path w u Hpub) as (bytes & _ & ->).
  unfold artifacts_written. split; [|split].
  - rewrite lookup_insert_ne by (symmetry; apply tmp_pdf_out_ne_out_path).
    rewrite lookup_delete_ne by (symmetry; apply tmp_pdf_out_ne_tmp_path).
    rewrite lookup_insert_ne by (symmetry; apply tmp_pdf_out_ne_tmp_path).
    rewrite lookup_insert_ne by (symmetry; apply tmp_pdf_out_ne_pdf_out_path).
    apply lookup_delete_eq.
  - rewrite lookup_insert_ne by apply out_path_ne_tmp_path.
    apply lookup_delete_eq.
  - intros q Hq. rewrite !not_elem_of_cons in Hq.
    destruct Hq as (H1 & H2 & H3 & H4 & _).
    rewrite lookup_insert_ne, lookup_delete_ne, lookup_insert_ne,
      lookup_insert_ne, lookup_delete_ne, lookup_insert_ne; done.
Qed.

(** Applying the two artifacts twice is applying them once. *)
Lemma artifacts_written_idemp h path bytes f :
  artifacts_written h path bytes (artifacts_written h path bytes f)
  = artifacts_written h path bytes f.
Proof.
  pose proof (tmp_pdf_out_ne_pdf_out_path h path).
  pose proof (tmp_pdf_out_ne_out_path h path).
  pose proof (tmp_pdf_out_ne_tmp_path h path).
  pose proof (pdf_out_path_ne_out_path h path).
  pose proof (pdf_out_path_ne_tmp_path h path).
  pose proof (out_path_ne_tmp_path h path).
  unfold artifacts_written. apply map_eq. intros q.
  destruct (decide (q = out_path h path)) as [->|];
    [by rewrite !lookup_insert_eq|].
  destruct (decide (q = tmp_path h path)) as [->|];
    [by rewrite !(lookup_insert_ne _ (out_path h path)), !lookup_delete_eq|].
  destruct (decide (q = pdf_out_path h path)) as [->|].
  { rewrite !(lookup_insert_ne _ (out_path h path)),
      !(lookup_delete_ne _ (tmp_path h path)),
      !(lookup_insert_ne _ (tmp_path h path)) by done.
    by rewrite !lookup_insert_eq. }
  destruct (decide (q = tmp_pdf_out h path)) as [->|].
  { rewrite !(lookup_insert_ne _ (out_path h path)),
      !(lookup_delete_ne _ (tmp_path h path)),
      !(lookup_insert_ne _ (tmp_path h path)),
      !(lookup_insert_ne _ (pdf_out_path h path)) by done.
    by rewrite !lookup_delete_eq. }
  repeat first [rewrite lookup_insert_ne by done
               | rewrite lookup_delete_ne by done].
  done.
Qed.

(** X14. Reprocessing is idempotent on the disk: when a run publishes
    the artifacts of a path and a later run on the resulting disk
    publishes the same bytes for it (the engine being deterministic),
    the files after the second run are exactly those after the first. *)
Theorem republish_idempotent h env env' path w u u' bytes :
  published h env path w u →
  (ocr_to_bytes env path (ocr_jobs h) (output_type h) w).1 = Ok (bytes, u) →
  let w1 := (_handle_path h env path w).2 in
  published h env' path w1 u' →
  (ocr_to_bytes env' path (ocr_jobs h) (output_type h) w1).1 = Ok (bytes, u') →
  files (_handle_path h env' path w1).2 = files w1.
Proof.
  intros Hpub Hocr w1 Hpub' Hocr'.
  destruct (published_files h env' path w1 u' Hpub') as (b' & Hb' & ->).
  rewrite Hocr' in Hb'. injection Hb' as <-.
  subst w1. destruct (published_files h env path w u Hpub) as (b & Hb & ->).
  rewrite Hocr in Hb. injection Hb as <-.
  apply artifacts_written_idemp.
Qed.

(** The sample run that publishes [/in/report.pdf]. *)
Lemma sample_run_published :
  published sample_handler
    (sample_env (Some <$> [3; 3; 3]%Z) true (Some sample_engine))
    ["in"; "report.pdf"] (sample_world true) false.
Proof. unfold published. cbv zeta. split; decide_path_elem. Qed.

(** The sample run with a stale temporary file in the output directory. *)
Lemma no_temporary_file_left_witness :
  let w := mkWorld {[ ["in"]; ["in"; "base64"] ]}
             {[ ["in"; "report.pdf"] := ["M"%byte; "a"%byte; "n"%byte];
                ["in"; "base64"; "report.base64.tmp"] := ["x"%byte] ]} [] [] in
  files (_handle_path sample_handler
           (sample_env (Some <$> [3; 3; 3]%Z) true (Some sample_engine))
           ["in"; "report.pdf"] w).2
    !! ["in"; "base64"; "report.base64.tmp"] = None.
Proof.
  intros w.
  apply (no_temporary_file_left sample_handler
           (sample_env (Some <$> [3; 3; 3]%Z) true (Some sample_engine))
           ["in"; "report.pdf"] w false).
  unfold published. cbv zeta. split; decide_path_elem.
Defined.

(** The sample run made twice. *)
Lemma republish_idempotent_witness :
  let env := sample_env (Some <$> [3; 3; 3]%Z) true (Some sample_engine) in
  let w1 := (_handle_path sample_handler env ["in"; "report.pdf"]
               (sample_world true)).2 in
  files (_handle_path sample_handler env ["in"; "report.pdf"] w1).2 = files w1.
Proof.
  intros env w1.
  apply (republish_idempotent sample_handler env env ["in"; "report.pdf"]
           (sample_world true) false false
           ["O"%byte; "K"%byte; "M"%byte; "a"%byte; "n"%byte]).
  - exact sample_run_published.
  - vm_compute. reflexivity.
  - unfold published. cbv zeta. split; decide_path_elem.
  - vm_compute. reflexivity.
Defined.

(** X15. What it takes to publish: in a task for which [ocr_to_bytes]
    has returned bytes, when the output directory exists, no regular
    file is in the way of it and none of the four names of the task is a
    directory, both artifacts are written and reported, with these
    bytes. *)
Theorem publishes_when_directory_exists h env path w bytes u :
  passes_filters h env path w = true →
  wait_for_file_ready env path (use_polling h) (retries h) = true →
  (ocr_to_bytes env path (ocr_jobs h) (output_type h) w).1 = Ok (bytes, u) →
  dir_exists w (output_dir h) = true →
  (∀ a, a ∈ ancestors (output_dir h) → files w !! a = None) →
  (∀ p, p ∈ [tmp_pdf_out h path; pdf_out_path h path;
             tmp_path h path; out_path h path] → p ∉ dirs w) →
  published h env path w u
  ∧ files (_handle_path h env path w).2
    = artifacts_written h path bytes (files w).
Proof.
  intros Hf Hready Hret Hdir Hfree Hnd.
  assert (Hnd' : ∀ p, p ∈ [tmp_pdf_out h path; pdf_out_path h path;
                           tmp_path h path; out_path h path] →
                      dir_exists w p = false).
  { intros p Hp. specialize (Hnd p Hp). revert Hp.
    rewrite !elem_of_cons, elem_of_nil.
    intros [-> | [-> | [-> | [-> | []]]]];
      rewrite ?tmp_pdf_out_eq, ?tmp_path_eq in *;
      unfold pdf_out_path, out_path in *;
      rewrite dir_exists_joinpath; by apply bool_decide_eq_false. }
  unfold published.
  destruct (_handle_path_publication h env path w bytes u Hf Hready Hret)
    as (lg & w2 & Hocr & Hw2 & ->).
  rewrite write_ocr_pdf_succeeds in Hw2; cycle 1.
  { exact Hdir. }
  { apply Hnd'. rewrite !elem_of_cons. auto. }
  { apply Hnd'. rewrite !elem_of_cons. auto. }
  injection Hw2 as <-.
  rewrite write_base64_succeeds; cycle 1.
  { intros a Ha. cbn.
    assert (a ≠ tmp_pdf_out h path ∧ a ≠ pdf_out_path h path) as [H1 H2].
    { split; intros ->; (eapply written_paths_not_ancestors; [|exact Ha]);
        rewrite !elem_of_cons; auto. }
    rewrite lookup_insert_ne, lookup_delete_ne, lookup_insert_ne by done.
    by apply Hfree. }
  { cbn. apply Hnd. rewrite !elem_of_cons. auto 6. }
  { cbn. apply Hnd. rewrite !elem_of_cons. auto 6. }
  cbn. split; [|done].
  unfold new_logs. cbn. rewrite <- !(assoc_L (++)), drop_app_length.
  rewrite !elem_of_app, !list_elem_of_singleton. auto.
Qed.

(** The sample run meets the conditions. *)
Lemma publishes_when_directory_exists_witness :
  published sample_handler
    (sample_env (Some <$> [3; 3; 3]%Z) true (Some sample_engine))
    ["in"; "report.pdf"] (sample_world true) false.
Proof.
  destruct (publishes_when_directory_exists sample_handler
              (sample_env (Some <$> [3; 3; 3]%Z) true (Some sample_engine))
              ["in"; "report.pdf"] (sample_world true)
              ["O"%byte; "K"%byte; "M"%byte; "a"%byte; "n"%byte] false)
    as (Hpub & _); try (vm_compute; reflexivity).
  - intros a Ha. change (ancestors (output_dir sample_handler))
      with [["in"]; ["in"; "base64"]] in Ha.
    rewrite !elem_of_cons, elem_of_nil in Ha.
    destruct Ha as [-> | [-> | []]]; reflexivity.
  - intros p Hp.
    change [tmp_pdf_out sample_handler ["in"; "report.pdf"];
            pdf_out_path sample_handler ["in"; "report.pdf"];
            tmp_path sample_handler ["in"; "report.pdf"];
            out_path sample_handler ["in"; "report.pdf"]]
      with [["in"; "base64"; "report_ocr.pdf.tmp"];
            ["in"; "base64"; "report_ocr.pdf"];
            ["in"; "base64"; "report.base64.tmp"];
            ["in"; "base64"; "report.base64"]] in Hp.
    rewrite !elem_of_cons, elem_of_nil in Hp.
    destruct Hp as [-> | [-> | [-> | [-> | []]]]]; vm_compute; discriminate.
  - exact Hpub.
Defined.


(** ** The dispatcher, further *)

(** X16. The callbacks of the handler are submissions: they keep the
    state reachable (so that no path gets a second work unit through
    them); an event on a directory changes nothing; a moved event is
    judged on its destination, and is absorbed when the destination is
    in flight; a created event for a path that is not in flight queues
    it last, and so does a moved event for its destination (for its
    source when the event has no destination). *)
Theorem event_callbacks h workers event s :
  reachable h workers s →
  reachable h workers (on_created event s)
  ∧ reachable h workers (on_moved event s)
  ∧ (is_directory event = true →
     on_created event s = s ∧ on_moved event s = s)
  ∧ (∀ d, is_directory event = false → dest_path event = Some d →
       d ∈ in_flight s →
       on_moved event s
       = set_world s (with_logs (world s) [duplicate_record d]))
  ∧ (is_directory event = false → src_path event ∉ in_flight s →
     queued (on_created event s) = (queued s ++ [src_path event])%list)
  ∧ (∀ d, is_directory event = false → dest_path event = Some d →
       d ∉ in_flight s →
       queued (on_moved event s) = (queued s ++ [d])%list)
  ∧ (is_directory event = false → dest_path event = None →
     src_path event ∉ in_flight s →
     queued (on_moved event s) = (queued s ++ [src_path event])%list).
Proof.
  intros [w Hreach]. unfold on_created, on_moved.
  split; [|split; [|split; [|split; [|split; [|split]]]]].
  - destruct (is_directory event); [by exists w|].
    exists w. etrans; [exact Hreach | apply submit_path_steps].
  - destruct (is_directory event); [by exists w|].
    exists w. etrans; [exact Hreach | apply submit_path_steps].
  - by intros ->.
  - intros d -> -> Hd. cbn. by rewrite submit_path_duplicate.
  - intros -> Hs. by rewrite submit_path_fresh.
  - intros d -> -> Hd. cbn. by rewrite submit_path_fresh.
  - intros -> -> Hs. cbn. by rewrite submit_path_fresh.
Qed.

(** A file moved onto a path that is being processed. *)
Lemma event_callbacks_witness :
  let s := submit_path ["in"; "b.pdf"] (init_sys (sample_world true)) in
  queued (on_moved (mkEvent false ["in"; "a.pdf"] (Some ["in"; "b.pdf"])) s)
  = [["in"; "b.pdf"]].
Proof.
  intros s.
  destruct (event_callbacks sample_handler 2
              (mkEvent false ["in"; "a.pdf"] (Some ["in"; "b.pdf"])) s)
    as (_ & _ & _ & Hmoved & _).
  { exists (sample_world true). apply submit_path_steps. }
  rewrite (Hmoved ["in"; "b.pdf"] eq_refl eq_refl).
  - subst s. by rewrite submit_path_fresh by apply not_elem_of_empty.
  - subst s. rewrite submit_path_fresh by apply not_elem_of_empty.
    cbn. apply elem_of_union_l. by apply elem_of_singleton.
Defined.

(** X17. The life of a work unit: a path that is not in flight, submitted
    to an idle queue, started and run to the end, leaves the set, the
    queue and the running units as they were; the set has seen one [add]
    and then one [discard] of the path. *)
Theorem submit_run_release h env path s :
  path ∉ in_flight s →
  queued s = [] →
  let s1 := worker_start (submit_path path s) in
  let s2 := worker_finish h env path s1 in
  path ∈ in_flight s1
  ∧ running s1 = path :: running s
  ∧ in_flight s2 = in_flight s
  ∧ (admitted s2, queued s2, running s2) = (admitted s, [], running s)
  ∧ set_calls s2 = (set_calls s ++ [SetAdd path; SetDiscard path])%list.
Proof.
  intros Hfresh Hq. cbn zeta.
  rewrite submit_path_fresh by done. unfold worker_start. cbn.
  rewrite Hq. cbn. unfold worker_finish. rewrite _task_eq. cbn.
  rewrite bool_decide_true by done.
  split; [apply elem_of_union_l; by apply elem_of_singleton|].
  split; [done|]. split.
  { apply set_eq. intros x.
    rewrite elem_of_difference, elem_of_union, elem_of_singleton. split.
    - by intros [[-> | Hx] Hne].
    - intros Hx. split; [by right | by intros ->]. }
  split; [done|]. by rewrite <- (assoc_L (++)).
Qed.

(** [/in/report.pdf] from submission to release. *)
Lemma submit_run_release_witness :
  let s := init_sys (sample_world true) in
  let s2 := worker_finish sample_handler
              (sample_env (Some <$> [3; 3; 3]%Z) true None)
              ["in"; "report.pdf"]
              (worker_start (submit_path ["in"; "report.pdf"] s)) in
  in_flight s2 = ∅ ∧ running s2 = [].
Proof.
  intros s s2.
  destruct (submit_run_release sample_handler
              (sample_env (Some <$> [3; 3; 3]%Z) true None)
              ["in"; "report.pdf"] s) as (_ & _ & Hin & Hrest & _);
    [apply not_elem_of_empty | reflexivity |].
  subst s2. split; [exact Hin|]. exact (f_equal snd Hrest).
Defined.

(** Fresh and distinct paths submitted in a row are queued in that
    order. *)
Lemma submit_all_fresh ps s :
  NoDup ps → (∀ p, p ∈ ps → p ∉ in_flight s) →
  foldl (λ s p, submit_path p s) s ps
  = mkSys (list_to_set ps ∪ in_flight s) (admitted s) (queued s ++ ps)
      (running s) (set_calls s ++ (SetAdd <$> ps)) (world s).
Proof.
  revert s. induction ps as [|p ps IH]; intros s Hnd Hfresh.
  - cbn. rewrite !app_nil_r, (left_id_L ∅ (∪)). by destruct s.
  - apply NoDup_cons in Hnd as [Hp Hnd]. cbn [foldl].
    rewrite submit_path_fresh by (apply Hfresh, elem_of_cons; by left).
    rewrite IH; [|done|].
    + cbn. rewrite <- !(assoc_L (++)). f_equal.
      by rewrite (assoc_L (∪)), (comm_L (∪) _ {[p]}).
    + intros q Hq. cbn. rewrite not_elem_of_union, not_elem_of_singleton.
      split; [by intros ->|]. apply Hfresh, elem_of_cons. by right.
Qed.

Lemma initial_scan_filter h env pdfs s :
  initial_scan h env pdfs s
  = foldl (λ s p, submit_path p s) s
      (filter (λ p, is_within env p (output_dir h) = false) pdfs).
Proof.
  unfold initial_scan. revert s. induction pdfs as [|p pdfs IH]; intros s; [done|].
  cbn [foldl]. rewrite filter_cons.
  destruct (is_within env p (output_dir h)) eqn:Hw.
  - rewrite decide_False by done. apply IH.
  - rewrite decide_True by done. cbn [foldl]. apply IH.
Qed.

(** X18. The initial scan of [main] submits, in the order of the list,
    exactly the files found that are not within the output directory:
    for distinct files, none of them in flight, these are queued behind
    what was queued and form, with what was there, the in-flight set;
    nothing else changes. When every file found is within the output
    directory (as all are when it is the input directory itself)
    nothing is submitted. *)
Theorem initial_scan_submits h env pdfs s :
  NoDup pdfs →
  (∀ p, p ∈ pdfs → p ∉ in_flight s) →
  let keep := filter (λ p, is_within env p (output_dir h) = false) pdfs in
  initial_scan h env pdfs s
  = mkSys (list_to_set keep ∪ in_flight s) (admitted s) (queued s ++ keep)
      (running s) (set_calls s ++ (SetAdd <$> keep)) (world s)
  ∧ ((∀ p, p ∈ pdfs → is_within env p (output_dir h) = true) →
     initial_scan h env pdfs s = s).
Proof.
  intros Hnd Hfresh keep. split.
  - rewrite initial_scan_filter. apply submit_all_fresh.
    + by apply NoDup_filter.
    + intros p [_ Hp]%list_elem_of_filter. by apply Hfresh.
  - apply initial_scan_skips.
Qed.

(** Three files found, one of them in the output directory. *)
Lemma initial_scan_submits_witness :
  queued (initial_scan sample_handler (sample_env [] true None)
            [["in"; "a.pdf"]; ["in"; "base64"; "a_ocr.pdf"]; ["in"; "b.pdf"]]
            (init_sys (sample_world true)))
  = [["in"; "a.pdf"]; ["in"; "b.pdf"]].
Proof.
  destruct (initial_scan_submits sample_handler (sample_env [] true None)
              [["in"; "a.pdf"]; ["in"; "base64"; "a_ocr.pdf"]; ["in"; "b.pdf"]]
              (init_sys (sample_world true))) as [-> _].
  - repeat (apply NoDup_cons; split;
            [rewrite ?not_elem_of_cons; repeat split;
             first [discriminate | apply not_elem_of_nil]|]).
    apply NoDup_nil_2.
  - intros p _. apply not_elem_of_empty.
  - reflexivity.
Defined.


(** ** watcher/cli.py *)

Lemma lower_ascii_idemp (c : ascii) : lower_ascii (lower_ascii c) = lower_ascii c.
Proof. by destruct c as [[] [] [] [] [] [] [] []]. Qed.

Lemma is_space_lower (c : ascii) : is_space (lower_ascii c) = is_space c.
Proof. by destruct c as [[] [] [] [] [] [] [] []]. Qed.

Lemma str_lower_idemp (s : string) : str_lower (str_lower s) = str_lower s.
Proof.
  induction s as [|c s IH]; [done|]. cbn. by rewrite lower_ascii_idemp, IH.
Qed.

Lemma str_lstrip_lower (s : string) :
  str_lstrip (str_lower s) = str_lower (str_lstrip s).
Proof.
  induction s as [|c s IH]; [done|]. cbn. rewrite is_space_lower.
  by destruct (is_space c).
Qed.

Lemma str_rev_onto_lower (s acc : string) :
  str_rev_onto (str_lower s) (str_lower acc) = str_lower (str_rev_onto s acc).
Proof.
  revert acc. induction s as [|c s IH]; intros acc; [done|].
  cbn. apply (IH (String c acc)).
Qed.

Lemma str_strip_lower (s : string) : str_strip (str_lower s) = str_lower (str_strip s).
Proof.
  unfold str_strip, str_rev.
  rewrite str_lstrip_lower.
  rewrite (str_rev_onto_lower _ EmptyString).
  rewrite str_lstrip_lower.
  apply (str_rev_onto_lower _ EmptyString).
Qed.

(** The three results of the normalisation. *)
Lemma main_output_type_cases ot :
  main_output_type ot = ("pdf", false)
  ∨ main_output_type ot = ("pdfa", false)
  ∨ main_output_type ot = ("pdf", true).
Proof.
  unfold main_output_type.
  set (t := str_lower (str_strip (if String.eqb ot "" then "pdf" else ot))).
  destruct (String.eqb_spec t "pdf") as [->|Hpdf]; [by left|].
  destruct (String.eqb_spec t "pdfa") as [->|Hpdfa]; [by right; left|].
  by right; right.
Qed.

Lemma is_ascii_str_lower (s : string) :
  is_ascii_str s = true → is_ascii_str (str_lower s) = true.
Proof.
  unfold is_ascii_str.
  induction s as [|c s IH]; [done|].
  cbn [str_lower list_ascii_of_string forallb].
  intros [Hc Hs]%andb_true_iff. rewrite (IH Hs), andb_true_r.
  revert Hc. by destruct c as [[] [] [] [] [] [] [] []].
Qed.

(** X19. For an option [--output-type] of the ASCII range, the output
    type that [main] hands to the handler is ["pdf"] or ["pdfa"]; the
    warning goes with a replacement by ["pdf"]; a normalised value is
    kept as it is, without warning; and upper or lower case in the
    option makes no difference. *)
Theorem output_type_normalized ot :
  is_ascii_str ot = true →
  let r := main_output_type ot in
  (r.1 = "pdf" ∨ r.1 = "pdfa")
  ∧ (r.2 = false ∨ r = ("pdf", true))
  ∧ main_output_type r.1 = (r.1, false)
  ∧ is_ascii_str (str_lower ot) = true
  ∧ main_output_type (str_lower ot) = r.
Proof.
  intros Hascii. cbn zeta.
  assert (Hlow : main_output_type (str_lower ot) = main_output_type ot).
  { unfold main_output_type.
    assert ((if String.eqb (str_lower ot) "" then "pdf" else str_lower ot)
            = str_lower (if String.eqb ot "" then "pdf" else ot)) as ->
      by (by destruct ot).
    by rewrite str_strip_lower, str_lower_idemp. }
  pose proof (is_ascii_str_lower ot Hascii) as Hasc.
  rewrite Hlow.
  destruct (main_output_type_cases ot) as [-> | [-> | ->]]; cbn.
  - split; [by left|]. split; [by left|]. by split.
  - split; [by right|]. split; [by left|]. by split.
  - split; [by left|]. split; [by right|]. by split.
Qed.

(** [" PDFA "] is read as ["pdfa"], without warning. *)
Lemma output_type_normalized_witness :
  main_output_type " PDFA " = ("pdfa", false)
  ∧ main_output_type " pdfa " = ("pdfa", false).
Proof.
  destruct (output_type_normalized " PDFA " eq_refl) as (_ & _ & _ & _ & Hlow).
  split; [reflexivity | exact Hlow].
Defined.

(** [" PDFA "] is read as ["pdfa"]; ["docx"] is replaced, with a warning. *)
Example output_type_samples :
  main_output_type " PDFA " = ("pdfa", false)
  ∧ main_output_type "docx" = ("pdf", true)
  ∧ main_output_type "" = ("pdf", false)
  ∧ main_output_type " " = ("pdf", true).
Proof. by vm_compute. Qed.

(** X20. The set-up of [main]: a handler is built only with a pool of
    at least one worker, and [--workers 0] stands for one worker; with
    more than one worker and no [--ocr-jobs] every call of the engine
    runs with one job, and with one worker it runs with the CPU count; a
    given [--ocr-jobs] is kept; the handler gets the retry budget of the
    option and an output type that is ["pdf"] or ["pdfa"]. *)
Theorem main_handler_config env o h n :
  main_handler env o = Some (h, n) →
  (1 ≤ n)%Z
  ∧ (opt_workers o = Some 0%Z → n = 1%Z)
  ∧ ((1 < n)%Z → opt_ocr_jobs o = None →
     ocr_jobs h = Some 1%Z
     ∧ ∀ p, arg_jobs (ocr_args env p (ocr_jobs h) (output_type h)) = 1%Z)
  ∧ ((n ≤ 1)%Z → opt_ocr_jobs o = None →
     ocr_jobs h = None
     ∧ ∀ p, arg_jobs (ocr_args env p (ocr_jobs h) (output_type h))
            = cpu_or_1 env)
  ∧ (∀ j, opt_ocr_jobs o = Some j → ocr_jobs h = Some j)
  ∧ retries h = opt_retries o
  ∧ (output_type h = "pdf" ∨ output_type h = "pdfa").
Proof.
  unfold main_handler. destruct (main_dirs env o) as [[input output]|]; [|done].
  cbn. destruct (Z.leb_spec (workers_or_1 (main_workers env o)) 0) as [|Hpos];
    [done|].
  intros [= <- <-]. cbn.
  split; [lia|]. split; [|split; [|split; [|split; [|split]]]].
  - intros Hw. unfold main_workers. by rewrite Hw.
  - intros Hn Hj. unfold main_ocr_jobs. rewrite Hj.
    destruct (Z.ltb_spec 1 (workers_or_1 (main_workers env o))); [|lia].
    done.
  - intros Hn Hj. unfold main_ocr_jobs. rewrite Hj.
    destruct (Z.ltb_spec 1 (workers_or_1 (main_workers env o))); [lia|].
    done.
  - intros j Hj. unfold main_ocr_jobs. by rewrite Hj.
  - done.
  - destruct (main_output_type_cases (opt_output_type o)) as [-> | [-> | ->]];
      cbn; auto.
Qed.

(** On four CPUs with the default options: two workers, one job each. *)
Lemma main_handler_config_witness :
  ∃ h, main_handler (sample_env [] true None) (default_options ["in"])
       = Some (h, 2%Z)
       ∧ ocr_jobs h = Some 1%Z.
Proof.
  eexists. split; [reflexivity|].
  eapply (proj1 (proj2 (proj2 (main_handler_config (sample_env [] true None)
                                 (default_options ["in"]) _ 2 eq_refl))));
    [lia | reflexivity].
Defined.

Lemma joinpath_ne (d : Path) (nm : string) : joinpath d nm ≠ d.
Proof.
  unfold joinpath. intros H. apply (f_equal length) in H.
  rewrite length_app in H. cbn in H. lia.
Qed.

(** X21. With the default options and no symbolic link in the way, the
    output directory is [<input>/base64], inside the input directory and
    distinct from it; so a path under the output directory is ignored by
    [_handle_path], with the world untouched, and the initial scan
    submits none of them. *)
Theorem default_output_directory env input h n :
  (∀ p, resolve env p = Some p) →
  main_handler env (default_options input) = Some (h, n) →
  input_dir h = input
  ∧ output_dir h = joinpath input "base64"
  ∧ output_dir h ≠ input_dir h
  ∧ is_within env (output_dir h) (input_dir h) = true
  ∧ (∀ p w, output_dir h `prefix_of` p → _handle_path h env p w = (Ok (), w))
  ∧ (∀ pdfs s, (∀ p, p ∈ pdfs → output_dir h `prefix_of` p) →
       main_scan h env (default_options input) pdfs s = s).
Proof.
  intros Hres. unfold main_handler, main_dirs. cbn.
  rewrite Hres. cbn. rewrite Hres. cbn.
  match goal with
  | |- context [(?m <=? 0)%Z] => destruct (Z.leb_spec m 0) as [|_]; [done|]
  end.
  intros [= <- <-]. cbn.
  assert (Hwithin : ∀ p, joinpath input "base64" `prefix_of` p →
            is_within env p (joinpath input "base64") = true).
  { intros p Hp. unfold is_within. rewrite !Hres. by apply bool_decide_eq_true. }
  split; [done|]. split; [done|]. split; [apply joinpath_ne|].
  split; [|split].
  - unfold is_within. rewrite !Hres. apply bool_decide_eq_true.
    by exists ["base64"].
  - intros p w Hp. rewrite _handle_path_unfold. unfold passes_filters. cbn.
    rewrite (Hwithin p Hp), bool_decide_false by apply joinpath_ne.
    cbn. by rewrite andb_false_r.
  - intros pdfs s Hall. unfold main_scan. cbn. apply initial_scan_skips.
    intros p Hp. cbn. by apply Hwithin, Hall.
Qed.

(** The artifact of an earlier run, found again under [/in/base64]. *)
Lemma default_output_directory_witness :
  ∃ h n,
    main_handler (sample_env (Some <$> [3; 3; 3]%Z) true None)
      (default_options ["in"]) = Some (h, n)
    ∧ _handle_path h (sample_env (Some <$> [3; 3; 3]%Z) true None)
        ["in"; "base64"; "scan.pdf"] (sample_world true)
      = (Ok (), sample_world true).
Proof.
  eexists _, _. split; [reflexivity|].
  eapply (default_output_directory (sample_env (Some <$> [3; 3; 3]%Z) true None)
            ["in"]); [done | reflexivity |].
  by exists ["scan.pdf"].
Defined.


(** ** [_handle_path], the failure of the base64 write *)

Lemma mkdir_parents_blocked d w a :
  a ∈ ancestors d → is_Some (files w !! a) →
  mkdir_parents d w
  = (Raise FileExistsError,
     mkWorld (dirs w) (files w) (logs w) (calls w ++ [OpMkdir d])).
Proof.
  intros Ha Hsome. unfold mkdir_parents. run_M.
  destruct (existsb _ _) eqn:Hex; [done|].
  assert (existsb (λ a, bool_decide (is_Some (files w !! a))) (ancestors d) = true)
    as Htrue; [|congruence].
  apply existsb_exists. exists a. split; [by apply list_elem_of_In|].
  by apply bool_decide_eq_true.
Qed.

(** X22. A regular file in the way of the output directory: in a task
    that has read its input, [mkdir] raises, the exception is caught and
    logged as the last record, at ERROR level, [_handle_path] returns
    normally, and nothing is written at the place of the base64
    artifact or of its temporary file. *)
Theorem base64_failure_logged h env path w original a :
  passes_filters h env path w = true →
  wait_for_file_ready env path (use_polling h) (retries h) = true →
  read_bytes path w = (Ok original, w) →
  a ∈ ancestors (output_dir h) →
  is_Some (files w !! a) →
  let r := _handle_path h env path w in
  r.1 = Ok ()
  ∧ (∃ e, last (logs r.2) = Some (ERROR, MsgFailedToProcess path e))
  ∧ files r.2 !! out_path h path = files w !! out_path h path
  ∧ files r.2 !! tmp_path h path = files w !! tmp_path h path.
Proof.
  intros Hf Hready Hread Ha Hsome. cbn zeta.
  destruct (ocr_to_bytes_cases env path (ocr_jobs h) (output_type h) w)
    as [(e & He & _) | (orig & [[bytes u]|e] & lg0 & _ & Hret & _)].
  { rewrite Hread in He. discriminate. }
  2:{ rewrite (_handle_path_ocr_raises h env path w e _ Hf Hready Hret). cbn.
      split; [done|]. split; [eexists; apply last_snoc | done]. }
  apply (f_equal fst) in Hret. cbn in Hret.
  destruct (_handle_path_publication h env path w bytes u Hf Hready Hret)
    as (lg & w2 & Hocr & Hw2 & ->).
  destruct (write_ocr_pdf_frame h path bytes u (with_logs w lg))
    as (w2' & Hw2' & Hd2 & Hf2).
  rewrite Hw2 in Hw2'. injection Hw2' as <-. cbn in Hf2.
  assert (Hblocked : is_Some (files w2 !! a)).
  { rewrite Hf2; [done| |]; intros ->;
      (eapply written_paths_not_ancestors; [|exact Ha]);
      rewrite !elem_of_cons; auto. }
  unfold write_base64, mbind, M_bind.
  rewrite (mkdir_parents_blocked _ _ a Ha Hblocked). cbn.
  split; [done|]. split; [eexists; apply last_snoc|]. split.
  - apply Hf2; [symmetry; apply tmp_pdf_out_ne_out_path
               | symmetry; apply pdf_out_path_ne_out_path].
  - apply Hf2; [symmetry; apply tmp_pdf_out_ne_tmp_path
               | symmetry; apply pdf_out_path_ne_tmp_path].
Qed.

(** [/in/base64] is a regular file. *)
Lemma base64_failure_logged_witness :
  let w := mkWorld {[ ["in"] ]}
             {[ ["in"; "report.pdf"] := ["M"%byte; "a"%byte; "n"%byte];
                ["in"; "base64"] := ["x"%byte] ]} [] [] in
  let r := _handle_path sample_handler
             (sample_env (Some <$> [3; 3; 3]%Z) true None)
             ["in"; "report.pdf"] w in
  r.1 = Ok () ∧ files r.2 !! ["in"; "base64"; "report.base64"] = None.
Proof.
  intros w r.
  destruct (base64_failure_logged sample_handler
              (sample_env (Some <$> [3; 3; 3]%Z) true None)
              ["in"; "report.pdf"] w ["M"%byte; "a"%byte; "n"%byte]
              ["in"; "base64"]) as (Hok & _ & Hout & _);
    try (vm_compute; reflexivity).
  - decide_path_elem.
  - by eexists.
  - split; [exact Hok | exact Hout].
Defined.


(** ** [main], the choice of the observer *)

Lemma prefix_cons (a b : ascii) (s t : string) :
  String.prefix (String a s) (String b t)
  = if Ascii.eqb a b then String.prefix s t else false.
Proof.
  cbn. destruct (ascii_dec a b) as [->|Hne].
  - by rewrite Ascii.eqb_refl.
  - by destruct (Ascii.eqb_spec a b).
Qed.

Lemma path_str_cons (c : string) (rest : Path) :
  path_str (c :: rest)
  = String "/" (c ++ match rest with [] => EmptyString | _ => path_str rest end).
Proof. by destruct rest. Qed.

Lemma app_nil_s (t : string) : EmptyString ++ t = t.
Proof. done. Qed.

Lemma app_cons_s (a : ascii) (s t : string) : String a s ++ t = String a (s ++ t).
Proof. done. Qed.

Lemma mnt_prefix (c tl : string) :
  no_slash c = true →
  (tl = EmptyString ∨ ∃ t, tl = String "/" t) →
  String.prefix "mnt/" (c ++ tl) = true ↔ c = "mnt" ∧ tl ≠ EmptyString.
Proof.
  intros Hc Htl.
  assert (Htl' : String.prefix "/" tl = true ↔ tl ≠ EmptyString).
  { destruct Htl as [-> | [t ->]]; [done|]. rewrite prefix_cons. cbn.
    by destruct t. }
  assert (Hno : ∀ pre, pre ≠ EmptyString → String.prefix pre tl = true →
                 ∃ t, pre = String "/" t).
  { intros pre Hpre. destruct Htl as [-> | [t ->]]; [by destruct pre|].
    destruct pre as [|a pre]; [done|]. rewrite prefix_cons.
    destruct (Ascii.eqb_spec a "/") as [->|]; [by eexists | done]. }
  destruct c as [|x1 c].
  { rewrite app_nil_s. split; [|by intros [[=] _]].
    intros H. by apply Hno in H as [t [=]]. }
  rewrite app_cons_s, prefix_cons.
  destruct (Ascii.eqb_spec "m" x1) as [<-|]; [|split; [done | by intros [[=] _]]].
  destruct c as [|x2 c].
  { rewrite app_nil_s. split; [|by intros [[=] _]].
    intros H. by apply Hno in H as [t [=]]. }
  rewrite app_cons_s, prefix_cons.
  destruct (Ascii.eqb_spec "n" x2) as [<-|]; [|split; [done | by intros [[=] _]]].
  destruct c as [|x3 c].
  { rewrite app_nil_s. split; [|by intros [[=] _]].
    intros H. by apply Hno in H as [t [=]]. }
  rewrite app_cons_s, prefix_cons.
  destruct (Ascii.eqb_spec "t" x3) as [<-|]; [|split; [done | by intros [[=] _]]].
  destruct c as [|x4 c].
  { rewrite app_nil_s, Htl'. by split; [|intros [_ ?]]. }
  rewrite app_cons_s, prefix_cons.
  destruct (Ascii.eqb_spec "/" x4) as [<-|]; [|split; [done | by intros [[=] _]]].
  by vm_compute in Hc.
Qed.

(** X23. Unless [--poll] or [--no-poll] is given, the handler is told to
    poll exactly when the input directory lies strictly under [/mnt]:
    [/mnt] itself, or a directory whose name only starts with [mnt], is
    watched with inotify. *)
Theorem auto_polling_under_mnt env o h n :
  main_handler env o = Some (h, n) →
  Forall (λ c, no_slash c = true) (input_dir h) →
  (∀ b, opt_use_polling o = Some b → use_polling h = b)
  ∧ (opt_use_polling o = None →
     use_polling h = true ↔ ∃ c rest, input_dir h = "mnt" :: c :: rest).
Proof.
  unfold main_handler. destruct (main_dirs env o) as [[input output]|]; [|done].
  cbn. destruct (Z.leb_spec (workers_or_1 (main_workers env o)) 0); [done|].
  intros [= <- <-]. cbn. intros Hnames. unfold main_use_polling.
  split; [by intros b ->|]. intros ->.
  destruct input as [|c1 rest].
  { split; [discriminate | by intros (? & ? & [=])]. }
  rewrite path_str_cons. change "/mnt/" with (String "/" "mnt/").
  rewrite prefix_cons. cbn [Ascii.eqb Bool.eqb].
  apply Forall_cons in Hnames as [Hc1 _].
  rewrite mnt_prefix; [| done |].
  - split.
    + intros [-> Hne]. destruct rest as [|c rest]; [done|]. by exists c, rest.
    + intros (c & rest' & [= -> ->]). split; [done|]. by destruct rest'.
  - destruct rest as [|c rest]; [by left|]. right.
    rewrite path_str_cons. by eexists.
Qed.

(** [/mnt/share] is polled. *)
Lemma auto_polling_under_mnt_witness :
  ∃ h n, main_handler (sample_env [] true None) (default_options ["mnt"; "share"])
         = Some (h, n)
         ∧ use_polling h = true.
Proof.
  eexists _, _. split; [reflexivity|].
  apply (proj2 (auto_polling_under_mnt (sample_env [] true None)
                  (default_options ["mnt"; "share"]) _ _ eq_refl
                  ltac:(by repeat constructor))); [reflexivity|].
  by exists "share", [].
Defined.

(** [/mnt] itself and [/mnt2/share] are not polled. *)
Example auto_polling_samples :
  main_use_polling (default_options ["mnt"]) ["mnt"] = false
  ∧ main_use_polling (default_options ["mnt2"; "share"]) ["mnt2"; "share"] = false.
Proof. by vm_compute. Qed.


(** ** [ocr_to_bytes] and its scratch file *)

(** X24. The outcome of [ocr_to_bytes] when the scratch file holds. For
    a readable input, and an engine, if there is one, that gets its
    scratch file and leaves it in place: without the engine, on any
    exception of the engine, and on empty output, the original bytes are
    returned with [used_original = True]; on non-empty output that
    output is returned with [used_original = False]; and the flag is
    [False] in that case only. The files are left as they were. *)
Theorem ocr_outcome_with_scratch env pdf_path jobs ot w original :
  read_bytes pdf_path w = (Ok original, w) →
  (∀ ocr, ocrmypdf env = Some ocr →
     scratch_error env = None
     ∧ is_Some (engine_scratch (ocr (ocr_args env pdf_path jobs ot) (files w)))) →
  let r := (ocr_to_bytes env pdf_path jobs ot w).1 in
  let out := λ ocr : OcrArgs → gmap Path (list byte) → EngineOutcome,
               ocr (ocr_args env pdf_path jobs ot) (files w) in
  (ocrmypdf env = None → r = Ok (original, true))
  ∧ (∀ ocr e, ocrmypdf env = Some ocr →
       engine_raises (out ocr) = Some e → r = Ok (original, true))
  ∧ (∀ ocr, ocrmypdf env = Some ocr →
       engine_raises (out ocr) = None → engine_scratch (out ocr) = Some [] →
       r = Ok (original, true))
  ∧ (∀ ocr data, ocrmypdf env = Some ocr →
       engine_raises (out ocr) = None → engine_scratch (out ocr) = Some data →
       data ≠ [] → r = Ok (data, false))
  ∧ (∀ bytes, r = Ok (bytes, false) ↔
       ∃ ocr, ocrmypdf env = Some ocr ∧ engine_raises (out ocr) = None
              ∧ engine_scratch (out ocr) = Some bytes ∧ bytes ≠ [])
  ∧ files (ocr_to_bytes env pdf_path jobs ot w).2 = files w.
Proof.
  intros Hr Hscratch r out. subst r out.
  destruct (ocrmypdf env) as [ocr|] eqn:Hocr.
  2:{ rewrite (ocr_to_bytes_not_installed _ _ _ _ _ original) by done. cbn.
      split; [done|]. do 3 (split; [by intros|]). split; [|done].
      intros bytes. split; [done | by intros (? & ? & _)]. }
  destruct (Hscratch ocr eq_refl) as [Hs [data Hdata]].
  rewrite (ocr_to_bytes_run _ _ _ _ _ original ocr) by done. cbn zeta.
  rewrite Hdata. cbn [fst snd]. unfold engine_result. rewrite Hdata.
  split; [done|].
  split; [by intros ? e [= <-] ->|].
  split.
  { intros ? [= <-] -> Hsc. rewrite Hdata in Hsc. by injection Hsc as ->. }
  split.
  { intros ? d [= <-] -> Hsc Hne. rewrite Hdata in Hsc. injection Hsc as ->.
    by destruct d. }
  split; [|done].
  intros bytes. split.
  - destruct (engine_raises _) as [e|] eqn:He; [done|].
    destruct data as [|b data]; [done|]. intros [= <-].
    exists ocr. by rewrite He, Hdata.
  - intros (? & [= <-] & -> & Hsc & Hne). rewrite Hdata in Hsc.
    injection Hsc as ->. by destruct bytes.
Qed.

(** The three bytes of [/in/report.pdf], without the engine and with
    one that returns five bytes. *)
Lemma ocr_outcome_with_scratch_witness :
  (ocr_to_bytes (sample_env [] true None) ["in"; "report.pdf"] None "pdf"
     (sample_world true)).1
  = Ok (["M"%byte; "a"%byte; "n"%byte], true)
  ∧ (ocr_to_bytes (sample_env [] true (Some sample_engine)) ["in"; "report.pdf"]
       None "pdf" (sample_world true)).1
    = Ok (["O"%byte; "K"%byte; "M"%byte; "a"%byte; "n"%byte], false).
Proof.
  split.
  - apply (ocr_outcome_with_scratch (sample_env [] true None) ["in"; "report.pdf"]
             None "pdf" (sample_world true) ["M"%byte; "a"%byte; "n"%byte]);
      [vm_compute; reflexivity | by intros ? [=] | reflexivity].
  - apply (ocr_outcome_with_scratch (sample_env [] true (Some sample_engine))
             ["in"; "report.pdf"] None "pdf" (sample_world true)
             ["M"%byte; "a"%byte; "n"%byte]) with (ocr := sample_engine).
    + vm_compute; reflexivity.
    + intros ? [= <-]. split; [reflexivity | by eexists].
    + reflexivity.
    + reflexivity.
    + reflexivity.
    + done.
Defined.

(** X25. When [ocr_to_bytes] raises: exactly when the input cannot be
    read, the cause being wrapped in a [RuntimeError]; or when, the input
    being read and the engine installed, no scratch file can be created,
    whose exception is handed on as it is; or when the scratch file is
    gone at the end of the [with] block, whatever the engine did, with
    [FileNotFoundError]. Without the engine a readable input never
    raises. *)
Theorem ocr_to_bytes_raises env path jobs ot w e :
  (ocr_to_bytes env path jobs ot w).1 = Raise e ↔
  (∃ e0, (read_bytes path w).1 = Raise e0 ∧ e = RuntimeError path e0)
  ∨ (∃ original ocr,
       read_bytes path w = (Ok original, w) ∧ ocrmypdf env = Some ocr
       ∧ (scratch_error env = Some e
          ∨ (scratch_error env = None
             ∧ engine_scratch (ocr (ocr_args env path jobs ot) (files w)) = None
             ∧ e = FileNotFoundError))).
Proof.
  pose proof (read_bytes_world path w) as Hw.
  destruct (read_bytes path w) as [[original|e0] w0] eqn:Hr; cbn in Hw; subst w0.
  2:{ rewrite (ocr_to_bytes_unreadable _ _ _ _ _ e0) by (by rewrite Hr). cbn.
      split.
      - intros [= <-]. left. by exists e0.
      - by intros [(? & [= <-] & ->) | (? & ? & [=] & _)]. }
  destruct (ocrmypdf env) as [ocr|] eqn:Hocr.
  2:{ rewrite (ocr_to_bytes_not_installed _ _ _ _ _ original) by done. cbn.
      split; [done|]. by intros [(? & [=] & _) | (? & ? & _ & [=] & _)]. }
  destruct (scratch_error env) as [e1|] eqn:Hs.
  { rewrite (ocr_to_bytes_no_scratch _ _ _ _ _ original ocr e1) by done. cbn.
    split.
    - intros [= <-]. right. exists original, ocr. auto.
    - intros [(? & [=] & _) | (? & ? & _ & _ & [[= ->] | ([=] & _)])]. done. }
  rewrite (ocr_to_bytes_run _ _ _ _ _ original ocr) by done. cbn.
  split.
  - destruct (engine_scratch _) eqn:Hsc; [done|]. intros [= <-].
    right. exists original, ocr. split; [done|]. split; [done|]. right. auto.
  - intros [(? & [=] & _) | (? & ? & _ & [= <-] & [[=] | (_ & -> & ->)])]. done.
Qed.

(** X26. When [ocr_to_bytes] raises in a task that has passed the
    filters and the readiness check, whatever the cause, the task
    returns normally and has done nothing but log: the directories, the
    files and the list of file-system calls are those of before, so that
    neither artifact is written; the last record is the failure, at
    ERROR level, and the only one when the input was unreadable; and the
    [finally] block has taken the path out of the in-flight set. *)
Theorem ocr_failure_aborts_task h env path s e :
  passes_filters h env path (world s) = true →
  wait_for_file_ready env path (use_polling h) (retries h) = true →
  (ocr_to_bytes env path (ocr_jobs h) (output_type h) (world s)).1 = Raise e →
  let r := _task h env path s in
  r.1 = Ok ()
  ∧ dirs (world r.2) = dirs (world s)
  ∧ files (world r.2) = files (world s)
  ∧ calls (world r.2) = calls (world s)
  ∧ last (logs (world r.2)) = Some (ERROR, MsgFailedToProcess path e)
  ∧ ((∃ e0, (read_bytes path (world s)).1 = Raise e0) →
     logs (world r.2)
     = (logs (world s) ++ [(ERROR, MsgFailedToProcess path e)])%list)
  ∧ in_flight r.2 = in_flight s ∖ {[path]}.
Proof.
  intros Hf Hready Hraise. cbn zeta. rewrite _task_eq.
  destruct (ocr_to_bytes_cases env path (ocr_jobs h) (output_type h) (world s))
    as [(e0 & He0 & Hocr) | (orig & r & lg & Hr & Hocr & _)];
    rewrite Hocr in Hraise; cbn in Hraise; subst;
    rewrite (_handle_path_ocr_raises h env path (world s) _ _ Hf Hready Hocr);
    cbn.
  - injection Hraise as <-.
    do 4 (split; [done|]). split; [apply last_snoc|]. by split.
  - do 4 (split; [done|]). split; [apply last_snoc|]. split; [|done].
    intros [e0 He0]. rewrite Hr in He0. discriminate.
Qed.

(** A task for [/in/gone.pdf], announced ready but absent from the disk
    when it is read. *)
Lemma ocr_failure_aborts_task_witness :
  let s := mkSys {[ ["in"; "gone.pdf"] ]} [] [] [ ["in"; "gone.pdf"] ] []
             (sample_world true) in
  let s' := (_task sample_handler (sample_env (Some <$> [3; 3; 3]%Z) true None)
               ["in"; "gone.pdf"] s).2 in
  in_flight s' = ∅
  ∧ files (world s') = files (world s)
  ∧ logs (world s')
    = [(ERROR, MsgFailedToProcess ["in"; "gone.pdf"]
                 (RuntimeError ["in"; "gone.pdf"] FileNotFoundError))].
Proof.
  intros s s'.
  destruct (ocr_failure_aborts_task sample_handler
              (sample_env (Some <$> [3; 3; 3]%Z) true None) ["in"; "gone.pdf"] s
              (RuntimeError ["in"; "gone.pdf"] FileNotFoundError))
    as (_ & _ & Hfiles & _ & _ & Hlogs & Hset);
    [vm_compute; reflexivity ..|].
  subst s'. rewrite Hset, Hfiles, Hlogs by (by eexists).
  split; [set_solver | done].
Defined.
